(** * dockerfile-generator.js: classification and template rendering

    A shallow embedding of [install_dockerfile_gen_sh/dockerfile-generator.js]
    (the same script is embedded verbatim in the shell installer), with the
    statements of the specification's claims about it.

    Conventions of the model.
    - A JavaScript string is a [string]: a sequence of code units, here the
      code units below U+0100 (what Rocq's [ascii] holds).
    - A value produced by [JSON.parse] is a [json]; a value that may also be
      [undefined] is an [option json], [None] standing for [undefined].
    - A thrown exception is a value of [exn]; a function that can throw
      returns [result A], and the calls of such functions are sequenced with
      the error monad's bind.
    - The file system is read three times by [detectAppType]; the directory
      is modelled by what these three reads return.
    - In the script as a whole a call of the path or the fs module can throw
      a system error: such a call returns [sys A], and a run is the trace
      of its events up to the one that ends the process. *)

From Stdlib Require Import Ascii String.
From stdpp Require Import base option list strings pretty gmap.

Local Open Scope stdpp_scope.

(** ** Exceptions *)

(** The two exceptions the script can raise once its argument checks have
    passed: [JSON.parse] throws a SyntaxError, and a property read on [null]
    or [undefined], or a call of something that is no function, throws a
    TypeError. *)
Inductive exn : Type :=
| SyntaxError
| TypeError.

Inductive result (A : Type) : Type :=
| Ok (a : A)
| Throw (e : exn).
Arguments Ok {A} a.
Arguments Throw {A} e.

Global Instance result_ret : MRet result := λ A a, Ok a.

Global Instance result_bind : MBind result := λ A B k r,
  match r with
  | Ok a => k a
  | Throw e => Throw e
  end.

Definition returns {A : Type} (r : result A) : Prop := ∃ a, r = Ok a.

(** ** JavaScript values *)

(** A number is observed by this script in two ways only: by [ToBoolean] (in
    a condition) and by [ToString] (in [Array.prototype.join]).  [JNum] keeps
    these two observations: whether the number is neither zero nor NaN, and
    its decimal text.

    [JObj] lists the own properties of an object in the order in which
    [Object.values] enumerates them; a read takes the first binding of a
    name. *)
#[warnings="-register-all"]
Inductive json : Type :=
| JNull
| JBool (b : bool)
| JNum (nonzero : bool) (text : string)
| JStr (s : string)
| JArr (elems : list json)
| JObj (props : list (string * json)).

(** [undefined] or a JSON value. *)
Abbreviation jsval := (option json).
Abbreviation undefined := (@None json).

(** [ToBoolean]. *)
Definition truthy (v : jsval) : bool :=
  match v with
  | None => false
  | Some JNull => false
  | Some (JBool b) => b
  | Some (JNum nonzero _) => nonzero
  | Some (JStr s) => negb (bool_decide (s = ""))
  | Some (JArr _) => true
  | Some (JObj _) => true
  end.

(** [a || b]. *)
Definition or_else (a b : jsval) : jsval := if truthy a then a else b.

(** First binding of [k] in an association list. *)
Fixpoint assoc (k : string) (l : list (string * json)) : jsval :=
  match l with
  | [] => None
  | (k', v) :: l => if bool_decide (k' = k) then Some v else assoc k l
  end.

(** The property read [v.k], for a name [k] that no built-in prototype
    defines (every name this script reads is one: dependencies,
    devDependencies, scripts, main, start, build, dev, develop).  On [null]
    and [undefined] the read throws; on a primitive, an array or an object
    without the property it is [undefined]. *)
Definition get (v : jsval) (k : string) : result jsval :=
  match v with
  | None => Throw TypeError
  | Some JNull => Throw TypeError
  | Some (JObj props) => Ok (assoc k props)
  | Some _ => Ok None
  end.

(** The optional read [v?.k]. *)
Definition get_opt (v : jsval) (k : string) : result jsval :=
  match v with
  | None => Ok None
  | Some JNull => Ok None
  | _ => get v k
  end.

(** The one-character strings of [s], in order. *)
Fixpoint chars (s : string) : list string :=
  match s with
  | "" => []
  | String c s => String c "" :: chars s
  end.

(** [xs] paired with the decimal index keys "0", "1", ... from [i] on. *)
Fixpoint indexed {A : Type} (i : nat) (xs : list A) : list (string * A) :=
  match xs with
  | [] => []
  | x :: xs => (pretty i, x) :: indexed (S i) xs
  end.

(** The own enumerable properties that a spread [{...v}] copies: none for
    [undefined], [null], booleans and numbers; the indexed characters of a
    string; the indexed elements of an array; the properties of an object. *)
Definition own_props (v : jsval) : list (string * json) :=
  match v with
  | Some (JStr s) => indexed 0 (JStr <$> chars s)
  | Some (JArr elems) => indexed 0 elems
  | Some (JObj props) => props
  | _ => []
  end.

(** The object literal [{ ...a, ...b }], as the finite map from its keys to
    their values: a key of [b] overrides the same key of [a]. *)
Definition spread2 (a b : jsval) : gmap string json :=
  list_to_map (own_props b) ∪ list_to_map (own_props a).

(** ** The directory *)

(** What [JSON.parse(fs.readFileSync(packageJsonPath, 'utf8'))] makes of the
    content of package.json: a syntax error, or the parsed value. *)
Inductive manifest_content : Type :=
| Malformed
| Parses (v : json).

Definition JSON_parse (c : manifest_content) : result json :=
  match c with
  | Malformed => Throw SyntaxError
  | Parses v => Ok v
  end.

(** The three reads of the directory at [absolutePath]:
    - [package_json]: [None] when [fs.existsSync] of package.json is false,
      else the content of the file;
    - [listing]: the names [fs.readdirSync] returns;
    - [has_requirements]: [fs.existsSync] of requirements.txt. *)
Record directory : Type := {
  package_json : option manifest_content;
  listing : list string;
  has_requirements : bool
}.

(** ** detectAppType *)

Inductive app_kind : Type :=
| react
| node
| python
| generic.

Global Instance app_kind_eq_dec : EqDecision app_kind.
Proof. solve_decision. Defined.

(** The object [detectAppType] returns: [{ type, packageJson }] for react
    and node, [{ type }] for python and generic (its [packageJson] is then
    [undefined]). *)
Record appType : Type := {
  type : app_kind;
  packageJson : jsval
}.

(** [s.endsWith(suffix)]: [suffix] is [s] or the end of a tail of [s]. *)
Fixpoint endsWith (s suffix : string) : bool :=
  bool_decide (s = suffix) ||
  match s with
  | "" => false
  | String _ s' => endsWith s' suffix
  end.

(** [detectAppType()].  With a package.json the file is parsed, the two
    dependency objects are merged and the merged object is tested for react
    and then for the four server frameworks; both the framework branch and
    the default return node.  Without one, a .py entry of the listing or a
    requirements.txt gives python, and anything else generic. *)
Definition detectAppType (d : directory) : result appType :=
  match package_json d with
  | Some content =>
      packageJson ← JSON_parse content;
      dependencies ← get (Some packageJson) "dependencies";
      devDependencies ← get (Some packageJson) "devDependencies";
      let deps := spread2 dependencies devDependencies in
      if truthy (deps !! "react") then
        Ok {| type := react; packageJson := Some packageJson |}
      else if truthy (deps !! "express") || truthy (deps !! "koa")
              || truthy (deps !! "hapi") || truthy (deps !! "fastify") then
        Ok {| type := node; packageJson := Some packageJson |}
      else
        Ok {| type := node; packageJson := Some packageJson |}
  | None =>
      let hasPythonFiles := existsb (λ file, endsWith file ".py") (listing d) in
      let hasRequirements := has_requirements d in
      if hasPythonFiles || hasRequirements then
        Ok {| type := python; packageJson := undefined |}
      else
        Ok {| type := generic; packageJson := undefined |}
  end.

(** ** Strings and arrays *)

(** The line feed and the double quote, by their codes. *)
Definition nl : string := String "010" "".
Definition dq : string := String "034" "".

(** A template literal that is a sequence of lines, each ended by a line
    feed (the closing backquote of every template of the script stands at
    the start of a line). *)
Fixpoint text (lines : list string) : string :=
  match lines with
  | [] => ""
  | l :: lines => l +:+ nl +:+ text lines
  end.

(** [s.split(sep)] for a one-character separator: the pieces between the
    occurrences of [sep]; there is always at least one piece. *)
Fixpoint split (sep : ascii) (s : string) : list string :=
  match s with
  | "" => [""]
  | String c s' =>
      if bool_decide (c = sep) then "" :: split sep s'
      else match split sep s' with
           | [] => [String c ""]
           | w :: ws => String c w :: ws
           end
  end.

(** [`${a[0]}`]: the element of index 0 as a template prints it. *)
Definition item0 (a : list string) : string := default "undefined" (a !! 0).

(** [startScript.split(' ')]: the method exists on strings only; on any
    other value the call throws. *)
Definition call_split (v : jsval) (sep : ascii) : result (list string) :=
  match v with
  | Some (JStr s) => Ok (split sep s)
  | _ => Throw TypeError
  end.

(** [Array.prototype.join] on an array of strings. *)
Fixpoint join (sep : string) (l : list string) : string :=
  match l with
  | [] => ""
  | [x] => x
  | x :: l => x +:+ sep +:+ join sep l
  end.

(** The results of a list of calls made in order, or the exception of the
    first that throws. *)
Fixpoint all_ok {A : Type} (l : list (result A)) : result (list A) :=
  match l with
  | [] => Ok []
  | r :: l => a ← r; rest ← all_ok l; Ok (a :: rest)
  end.

(** [ToString] of a JSON value.  An array prints as its elements joined by
    commas, [null] elements printing as nothing.  An object prints through
    the method toString it finds: the one of [Object.prototype], which
    returns [object Object], unless the object has an own property of that
    name.  That property holds a JSON value, which is no function, so the
    conversion goes on to valueOf, gets no primitive value from it, and
    throws a TypeError. *)
Fixpoint toString (v : json) : result string :=
  match v with
  | JNull => Ok "null"
  | JBool true => Ok "true"
  | JBool false => Ok "false"
  | JNum _ t => Ok t
  | JStr s => Ok s
  | JArr elems =>
      texts ← all_ok ((λ x, match x with JNull => Ok "" | _ => toString x end)
                        <$> elems);
      Ok (join "," texts)
  | JObj props =>
      match assoc "toString" props with
      | None => Ok "[object Object]"
      | Some _ => Throw TypeError
      end
  end.

(** How [join] prints one element of an array. *)
Definition elem_text (x : json) : result string :=
  match x with
  | JNull => Ok ""
  | _ => toString x
  end.

(** [Array.prototype.join] on an array of JSON values: the elements are
    printed in order, and an element that cannot be printed makes the call
    throw. *)
Definition Array_join (sep : string) (l : list json) : result string :=
  texts ← all_ok (elem_text <$> l);
  Ok (join sep texts).

(** [Object.values(v)]: throws on [undefined] and [null]; a boolean or a
    number has no own property. *)
Definition Object_values (v : jsval) : result (list json) :=
  match v with
  | None => Throw TypeError
  | Some JNull => Throw TypeError
  | Some (JStr s) => Ok (JStr <$> chars s)
  | Some (JArr elems) => Ok elems
  | Some (JObj props) => Ok (props.*2)
  | Some _ => Ok []
  end.

(** ** The regular expression /PORT=(\d+)/ *)

Definition is_digit (c : ascii) : bool :=
  bool_decide (48 ≤ nat_of_ascii c ≤ 57)%nat.

(** The longest run of digits [s] starts with. *)
Fixpoint digits (s : string) : string :=
  match s with
  | "" => ""
  | String c s' => if is_digit c then String c (digits s') else ""
  end.

(** [s] without the prefix [p], when it starts with [p]. *)
Fixpoint strip_prefix (p s : string) : option string :=
  match p, s with
  | "", _ => Some s
  | String a p', String b s' =>
      if bool_decide (a = b) then strip_prefix p' s' else None
  | String _ _, "" => None
  end.

(** A match of the expression that starts at the first character of [s]:
    the text of its group, the digits after PORT=, of which there must be
    one at least. *)
Definition match_here (s : string) : option string :=
  rest ← strip_prefix "PORT=" s;
  if bool_decide (digits rest = "") then None else Some (digits rest).

(** [s.match(/PORT=(\d+)/)], reduced to what the script reads of it: [None]
    for [null] (no match), else [portMatch[1]] of the leftmost match. *)
Fixpoint match_PORT (s : string) : option string :=
  match match_here s with
  | Some ds => Some ds
  | None =>
      match s with
      | "" => None
      | String _ s' => match_PORT s'
      end
  end.

(** ** The build files *)

(** [appType.packageJson.scripts?.name]. *)
Definition script_of (appType : appType) (name : string) : result jsval :=
  scripts ← get (packageJson appType) "scripts";
  get_opt scripts name.

(** [generateReactDockerfile(appType)]. *)
Definition generateReactDockerfile (appType : appType) : result string :=
  start ← script_of appType "start";
  let startScript := or_else start (Some (JStr "react-scripts start")) in
  build ← script_of appType "build";
  let buildScript := or_else build (Some (JStr "react-scripts build")) in
  buildWords ← call_split buildScript " ";
  Ok (text [
    "# Multi-stage build for React application";
    "FROM node:16-alpine AS build";
    "";
    "# Set working directory";
    "WORKDIR /app";
    "";
    "# Copy package.json and package-lock.json";
    "COPY package*.json ./";
    "";
    "# Install dependencies";
    "RUN npm ci";
    "";
    "# Copy the rest of the code";
    "COPY . .";
    "";
    "# Build the application";
    "RUN npm run " +:+ item0 buildWords;
    "";
    "# Production stage";
    "FROM nginx:alpine AS production";
    "";
    "# Copy build files from previous stage";
    "COPY --from=build /app/build /usr/share/nginx/html";
    "";
    "# Copy nginx configuration if it exists";
    "COPY nginx.conf /etc/nginx/conf.d/default.conf 2>/dev/null || :";
    "";
    "# Expose port";
    "EXPOSE 80";
    "";
    "# Start Nginx";
    "CMD [" +:+ dq +:+ "nginx" +:+ dq +:+ ", " +:+ dq +:+ "-g" +:+ dq +:+ ", "
      +:+ dq +:+ "daemon off;" +:+ dq +:+ "]"
  ]).

(** The port of [generateNodeDockerfile]: 3000, replaced by the digits of
    the first PORT= match in the values of [scripts] joined by spaces, when
    [scripts] is truthy and there is a match.  (The number 3000 and the
    matched text both reach the template, which prints them alike.) *)
Definition node_port (appType : appType) : result string :=
  scripts ← get (packageJson appType) "scripts";
  if truthy scripts then
    scripts ← get (packageJson appType) "scripts";
    values ← Object_values scripts;
    scriptValues ← Array_join " " values;
    match match_PORT scriptValues with
    | Some group1 => Ok group1
    | None => Ok "3000"
    end
  else Ok "3000".

(** The text [generateNodeDockerfile] returns for a port and a start
    word. *)
Definition node_template (port startWord : string) : string :=
  text [
    "# Dockerfile for Node.js application";
    "FROM node:16-alpine";
    "";
    "# Create app directory";
    "WORKDIR /app";
    "";
    "# Copy package.json and package-lock.json";
    "COPY package*.json ./";
    "";
    "# Install dependencies";
    "RUN npm ci";
    "";
    "# Copy the rest of the code";
    "COPY . .";
    "";
    "# Expose the port the app will run on";
    "EXPOSE " +:+ port;
    "";
    "# Start the application";
    "CMD [" +:+ dq +:+ "npm" +:+ dq +:+ ", " +:+ dq +:+ "run" +:+ dq +:+ ", "
      +:+ dq +:+ startWord +:+ dq +:+ "]"
  ].

(** [generateNodeDockerfile(appType)]. *)
Definition generateNodeDockerfile (appType : appType) : result string :=
  start ← script_of appType "start";
  let startScript := or_else start (Some (JStr "node server.js")) in
  dev ← script_of appType "dev";
  devScript ← (if truthy dev then Ok dev else script_of appType "develop");
  main ← get (packageJson appType) "main";
  let mainFile := or_else main (Some (JStr "index.js")) in
  port ← node_port appType;
  startWords ← call_split startScript " ";
  Ok (node_template port (item0 startWords)).

(** [generatePythonDockerfile()]. *)
Definition generatePythonDockerfile : string :=
  text [
    "# Dockerfile for Python application";
    "FROM python:3.9-slim";
    "";
    "# Set working directory";
    "WORKDIR /app";
    "";
    "# Copy requirements";
    "COPY requirements.txt .";
    "";
    "# Install dependencies";
    "RUN pip install --no-cache-dir -r requirements.txt";
    "";
    "# Copy the rest of the code";
    "COPY . .";
    "";
    "# Expose port";
    "EXPOSE 8000";
    "";
    "# Start the application";
    "CMD [" +:+ dq +:+ "python" +:+ dq +:+ ", " +:+ dq +:+ "app.py" +:+ dq +:+ "]"
  ].

(** [generateGenericDockerfile()]. *)
Definition generateGenericDockerfile : string :=
  text [
    "# Generic Dockerfile";
    "FROM ubuntu:20.04";
    "";
    "# Set working directory";
    "WORKDIR /app";
    "";
    "# Copy application files";
    "COPY . .";
    "";
    "# Install dependencies";
    "# RUN apt-get update && apt-get install -y some-package";
    "";
    "# Expose port";
    "# EXPOSE 8080";
    "";
    "# Start the application";
    "# CMD [" +:+ dq +:+ "./start.sh" +:+ dq +:+ "]"
  ].

(** [generateDockerfile(appType)]. *)
Definition generateDockerfile (appType : appType) : result string :=
  match type appType with
  | react => generateReactDockerfile appType
  | node => generateNodeDockerfile appType
  | python => Ok generatePythonDockerfile
  | generic => Ok generateGenericDockerfile
  end.

(** ** The ignore file *)

(** [generateDockerignore(appType)]. *)
Definition generateDockerignore (appType : appType) : string :=
  let dockerignoreContent := text [
    "# .dockerignore";
    ".git";
    ".gitignore";
    ".github";
    ".vscode";
    ".idea";
    "*.md";
    "!README.md"
  ] in
  match type appType with
  | react | node =>
      dockerignoreContent +:+ text [
        "node_modules";
        "npm-debug.log";
        "Dockerfile";
        ".dockerignore";
        "build";
        "dist";
        "coverage"
      ]
  | python =>
      dockerignoreContent +:+ text [
        "__pycache__/";
        "*.py[cod]";
        "*$py.class";
        "*.so";
        ".Python";
        "env/";
        "build/";
        "develop-eggs/";
        "dist/";
        "downloads/";
        "eggs/";
        ".eggs/";
        "lib/";
        "lib64/";
        "parts/";
        "sdist/";
        "var/";
        "*.egg-info/";
        ".installed.cfg";
        "*.egg";
        "venv/";
        "ENV/"
      ]
  | generic => dockerignoreContent
  end.

(** ** The compose file *)

(** [c.toLowerCase()] on one code unit below U+0100: A to Z, and the
    capital letters U+00C0 to U+00DE other than the multiplication sign
    U+00D7, move up by 32. *)
Definition lower_char (c : ascii) : ascii :=
  let n := nat_of_ascii c in
  if bool_decide (65 ≤ n ≤ 90)%nat
     || bool_decide (192 ≤ n ≤ 222)%nat && negb (bool_decide (n = 215))
  then ascii_of_nat (n + 32)
  else c.

(** [s.toLowerCase()]. *)
Fixpoint toLowerCase (s : string) : string :=
  match s with
  | "" => ""
  | String c s' => String (lower_char c) (toLowerCase s')
  end.

(** The character class [a-z0-9]. *)
Definition is_lower_alnum (c : ascii) : bool :=
  let n := nat_of_ascii c in
  bool_decide (97 ≤ n ≤ 122)%nat || bool_decide (48 ≤ n ≤ 57)%nat.

(** [s.replace(/[^a-z0-9]/g, '-')]. *)
Fixpoint replace_non_alnum (s : string) : string :=
  match s with
  | "" => ""
  | String c s' =>
      String (if is_lower_alnum c then c else "-"%char) (replace_non_alnum s')
  end.

(** The text [generateDockerCompose] returns for a service name and a
    port. *)
Definition compose_template (appName port : string) : string :=
  text [
    "version: '3'";
    "services:";
    "  " +:+ appName +:+ ":";
    "    build: .";
    "    ports:";
    "      - " +:+ dq +:+ port +:+ ":" +:+ port +:+ dq;
    "    volumes:";
    "      - .:/app";
    "    # environment:";
    "    #   - NODE_ENV=development"
  ].

(** [generateDockerCompose(appType)]; [basename] is
    [path.basename(absolutePath)]. *)
Definition generateDockerCompose (appType : appType) (basename : string) : string :=
  let port :=
    if bool_decide (type appType = react) then "80"
    else if bool_decide (type appType = python) then "8000"
    else "3000" in
  let appName := replace_non_alnum (toLowerCase basename) in
  compose_template appName port.

(** ** The script *)

(** The three documents the script writes, with the type it reports. *)
Record documents : Type := {
  detected : app_kind;
  dockerfileContent : string;
  dockerignoreContent : string;
  dockerComposeContent : string
}.

(** The main execution: detect, then generate the three documents.  An
    exception ends the run; nothing is generated after it. *)
Definition main (d : directory) (basename : string) : result documents :=
  appType ← detectAppType d;
  dockerfile ← generateDockerfile appType;
  let dockerignore := generateDockerignore appType in
  let dockerCompose := generateDockerCompose appType basename in
  Ok {| detected := type appType;
        dockerfileContent := dockerfile;
        dockerignoreContent := dockerignore;
        dockerComposeContent := dockerCompose |}.

(** * The notions of the specification *)

(** The value a manifest records for the package [name] in its [field]
    object (dependencies or devDependencies), when that object has the
    key. *)
Definition dependency (manifest : json) (field name : string) : jsval :=
  match manifest with
  | JObj fields =>
      match assoc field fields with
      | Some (JObj deps) => assoc name deps
      | _ => None
      end
  | _ => None
  end.

(** The manifest has the key [name] in either dependency map. *)
Definition has_dependency_key (manifest : json) (name : string) : Prop :=
  is_Some (dependency manifest "dependencies" name)
  ∨ is_Some (dependency manifest "devDependencies" name).

Global Instance has_dependency_key_dec manifest name :
  Decision (has_dependency_key manifest name).
Proof. unfold has_dependency_key. apply _. Defined.

(** The value of [name] in the merged lookup: the one of devDependencies
    when it has the key, else the one of dependencies. *)
Definition merged_dependency (manifest : json) (name : string) : jsval :=
  match dependency manifest "devDependencies" name with
  | Some v => Some v
  | None => dependency manifest "dependencies" name
  end.

(** A directory whose package.json holds the JSON text of [manifest]. *)
Definition with_manifest (manifest : json) : directory :=
  {| package_json := Some (Parses manifest);
     listing := ["package.json"];
     has_requirements := false |}.

(** ** Reading a document *)

(** Whether the character [c] occurs in [s]. *)
Fixpoint occurs (c : ascii) (s : string) : bool :=
  match s with
  | "" => false
  | String c' s' => bool_decide (c' = c) || occurs c s'
  end.

(** The lines of a document: the pieces between its line feeds. *)
Definition lines_of (doc : string) : list string := split "010" doc.

(** A comment line of a build file or of a compose file: its first
    character after the leading spaces is #. *)
Fixpoint is_comment (line : string) : bool :=
  match line with
  | String " " line' => is_comment line'
  | String "#" _ => true
  | _ => false
  end.

(** The live lines of a document: those that are neither empty nor
    comments. *)
Definition live_lines (doc : string) : list string :=
  filter (λ line, is_comment line = false ∧ line ≠ "") (lines_of doc).

(** The ports a build file exposes: the arguments of its EXPOSE
    instructions, in order. *)
Definition exposed (doc : string) : list string :=
  omap (strip_prefix "EXPOSE ") (lines_of doc).

(** The arguments of the CMD instructions of a build file. *)
Definition commands (doc : string) : list string :=
  omap (strip_prefix "CMD ") (lines_of doc).

(** ** The start word and the port *)

(** The text of [s] before its first space. *)
Fixpoint before_space (s : string) : string :=
  match s with
  | "" => ""
  | String c s' => if bool_decide (c = " "%char) then "" else String c (before_space s')
  end.

(** The word the node build file launches, by the value of the start
    script: the text before the first space of a start script that is a
    string and not empty, and the first word of the default otherwise. *)
Definition start_word (start : jsval) : string :=
  match start with
  | Some (JStr s) => if bool_decide (s = "") then "node" else before_space s
  | _ => "node"
  end.

(** The values [Object.values] returns where it returns. *)
Definition values_of (v : jsval) : list json :=
  match Object_values v with
  | Ok values => values
  | Throw _ => []
  end.

(** The port of the node build file, by the value of [scripts]; the join
    of the values can throw. *)
Definition scanned_port (scripts : jsval) : result string :=
  if truthy scripts
  then scriptValues ← Array_join " " (values_of scripts);
       Ok (default "3000" (match_PORT scriptValues))
  else Ok "3000".

(** A value [ToString] prints: any value but an object with an own
    property toString, and an array that holds one, at any depth of
    arrays.  (What an object holds under other keys is not looked at.) *)
Fixpoint printable (v : json) : bool :=
  match v with
  | JArr elems => forallb printable elems
  | JObj props => bool_decide (assoc "toString" props = None)
  | _ => true
  end.

(** The join of the values of [scripts] does not throw: [scripts] is
    falsy, and nothing is joined, or all its values print. *)
Definition printable_scripts (scripts : jsval) : Prop :=
  truthy scripts = true → forallb printable (values_of scripts) = true.

(** The manifest's script commands are [cmds], in the order of
    enumeration: it has no scripts and [cmds] is empty, or its scripts are
    an object whose values are the strings [cmds]. *)
Inductive script_commands (m : json) : list string → Prop :=
| no_scripts :
    get (Some m) "scripts" = Ok None → script_commands m []
| scripts_object (props : list (string * json)) (cmds : list string) :
    get (Some m) "scripts" = Ok (Some (JObj props)) →
    props.*2 = JStr <$> cmds →
    script_commands m cmds.

(** A string is made of digits only. *)
Fixpoint all_digits (s : string) : bool :=
  match s with
  | "" => true
  | String c s' => is_digit c && all_digits s'
  end.

(** The expression /PORT=(\d+)/ matches at the start of [s] with group
    [ds]: [s] is PORT=, then [ds], then the rest, where [ds] is not empty
    and is the longest run of digits there. *)
Definition match_at (s ds : string) : Prop :=
  ∃ rest, s = "PORT=" +:+ ds +:+ rest ∧ ds ≠ "" ∧ digits (ds +:+ rest) = ds.

(** ** The claims' own words *)

(** The concatenation of the script commands. *)
Definition concatenation (cmds : list string) : string := foldr String.app "" cmds.

(** The port of the first PORT= match in the concatenation of the script
    commands, 3000 without a match. *)
Definition port_of_concatenation (cmds : list string) : string :=
  default "3000" (match_PORT (concatenation cmds)).

(** The first token of [s] delimited by white space. *)
Definition first_token (s : string) : option string := head (String.words s).

(** The horizontal tab, by its code. *)
Definition tab : string := String "009" "".

(** The character of the service name that stands for the character [c]
    of the directory name: [c] in lower case when that is one of a to z or
    0 to 9, and - otherwise. *)
Definition service_char (c : ascii) : ascii :=
  let c' := lower_char c in
  if is_lower_alnum c' then c' else "-"%char.

(** The service name of a directory name, character by character. *)
Fixpoint service_name (basename : string) : string :=
  match basename with
  | "" => ""
  | String c s => String (service_char c) (service_name s)
  end.

(** The port of the compose file, by the type of the application. *)
Definition compose_port (k : app_kind) : string :=
  match k with
  | react => "80"
  | python => "8000"
  | node | generic => "3000"
  end.

(** The port line of a compose file: a list item, the mapping in double
    quotes. *)
Definition port_line (port : string) : string :=
  "      - " +:+ dq +:+ port +:+ ":" +:+ port +:+ dq.

(** The listing has an entry that ends in .py. *)
Definition has_python_entry (d : directory) : Prop :=
  ∃ file before, file ∈ listing d ∧ file = before +:+ ".py".

(** The files the script writes into the directory. *)
Definition generated_files : list string :=
  ["Dockerfile"; ".dockerignore"; "docker-compose.yml"].

(** * The rest of the script *)

(** ** The command line, the file system and the console *)

(** A call of the path or the fs module returns, or throws a system error
    of which the model keeps the code (ENOENT, ENOTDIR, EISDIR, EACCES,
    ENOSPC, ...). *)
Inductive sys (A : Type) : Type :=
| returned (a : A)
| failed (code : string).
Arguments returned {A} a.
Arguments failed {A} code.

(** The calls of the script that can throw a system error, with their
    arguments. *)
Inductive call : Type :=
| call_resolve (appPath : string)
| call_readFileSync (file : string)
| call_readdirSync (dir : string)
| call_writeFileSync (file data : string).

(** What the script does to the world, in order: a line on the error or
    the output stream, a call of [fs.writeFileSync] that returned, the
    process ended by [process.exit], or the process ended by an exception
    nothing catches: a SyntaxError or a TypeError, or the system error of
    a call. *)
Inductive event : Type :=
| console_error (message : string)
| console_log (message : string)
| writeFileSync (file data : string)
| process_exit (code : nat)
| uncaught (e : exn)
| uncaught_system (c : call) (code : string).

(** What the script asks of its host.
    - [argv2]: the third word of the command line, [process.argv[2]],
      [None] for [undefined].
    - [path_resolve]: [path.resolve], which reads the working directory
      for a relative path and throws when there is none; [path_join] and
      [path_basename] compute on their arguments alone.
    - [fs_existsSync]: [fs.existsSync], which answers false where it cannot
      tell and never throws.
    - [fs_readFileSync]: the content of a file as [JSON.parse] will read
      it, or the error of the read (the path may be a directory, or may not
      be readable).
    - [fs_readdirSync]: the names in a directory, or the error of the read
      (ENOTDIR when the path is a regular file).
    - [fs_writeFileSync]: whether the write of a file returns.  The script
      writes three files under three names, each once, and reads nothing
      after its first write.
    The global console ignores the errors of its streams, so a line of
    output is an event that cannot throw. *)
Record host : Type := {
  argv2 : option string;
  path_resolve : string → sys string;
  path_join : string → string → string;
  path_basename : string → string;
  fs_existsSync : string → bool;
  fs_readFileSync : string → sys manifest_content;
  fs_readdirSync : string → sys (list string);
  fs_writeFileSync : string → string → sys unit
}.

(** A run of the script up to some point: its events so far and, unless
    the process has ended, a value to go on with. *)
Record run (A : Type) : Type := Run {
  events : list event;
  value : option A
}.
Arguments Run {A} events value.
Arguments events {A} r.
Arguments value {A} r.

Global Instance run_ret : MRet run := λ A a, Run [] (Some a).

Global Instance run_bind : MBind run := λ A B k r,
  match value r with
  | Some a => Run (events r ++ events (k a)) (value (k a))
  | None => Run (events r) None
  end.

(** An event after which the script goes on. *)
Definition say (e : event) : run unit := Run [e] (Some ()).

(** An event that ends the process. *)
Definition stop {A : Type} (e : event) : run A := Run [e] None.

(** A computation of the script proper: an exception ends the process. *)
Definition throwing {A : Type} (r : result A) : run A :=
  match r with
  | Ok a => mret a
  | Throw e => stop (uncaught e)
  end.

(** A call of the path or the fs module: a system error ends the
    process. *)
Definition calling {A : Type} (c : call) (r : sys A) : run A :=
  match r with
  | returned a => mret a
  | failed code => stop (uncaught_system c code)
  end.

(** [fs.writeFileSync(file, data)]. *)
Definition write (h : host) (file data : string) : run unit :=
  match fs_writeFileSync h file data with
  | returned _ => say (writeFileSync file data)
  | failed code => stop (uncaught_system (call_writeFileSync file data) code)
  end.

(** The string [appType.type] holds. *)
Definition type_name (k : app_kind) : string :=
  match k with
  | react => "react"
  | node => "node"
  | python => "python"
  | generic => "generic"
  end.

(** The reads of [detectAppType] at [absolutePath], in its order: whether
    package.json exists, then its content; without one the names of the
    directory, then whether requirements.txt exists.  The fields that
    [detectAppType] does not read with a package.json are left empty. *)
Definition read_directory (h : host) (absolutePath : string) : run directory :=
  let hasPackageJson := fs_existsSync h (path_join h absolutePath "package.json") in
  if hasPackageJson then
    let packageJsonPath := path_join h absolutePath "package.json" in
    content ← calling (call_readFileSync packageJsonPath)
                      (fs_readFileSync h packageJsonPath);
    mret {| package_json := Some content; listing := []; has_requirements := false |}
  else
    files ← calling (call_readdirSync absolutePath) (fs_readdirSync h absolutePath);
    let hasRequirements :=
      fs_existsSync h (path_join h absolutePath "requirements.txt") in
    mret {| package_json := None; listing := files;
            has_requirements := hasRequirements |}.

(** The usage message of the first guard. *)
Definition usage {A : Type} : run A :=
  say (console_error "Error: Please provide a path to your application.");;
  say (console_log "Usage: node dockerfile-generator.js /path/to/your/app");;
  stop (process_exit 1).

(** The main execution, from the call of [detectAppType] to the last
    line, on the directory [d] that the reads of [detectAppType] return.
    An exception of [detectAppType] or of [generateDockerfile], or the
    system error of a write, ends the process where it is thrown; each file
    is written as soon as its content is generated, and the closing hints
    are printed after the third write. *)
Definition main_execution (h : host) (appPath absolutePath : string) (d : directory)
    : run unit :=
  appType ← throwing (detectAppType d);
  say (console_log ("Detected application type: " +:+ type_name (type appType)));;
  dockerfileContent ← throwing (generateDockerfile appType);
  let dockerfilePath := path_join h absolutePath "Dockerfile" in
  write h dockerfilePath dockerfileContent;;
  say (console_log ("Created Dockerfile at: " +:+ dockerfilePath));;
  let dockerignoreContent := generateDockerignore appType in
  let dockerignorePath := path_join h absolutePath ".dockerignore" in
  write h dockerignorePath dockerignoreContent;;
  say (console_log ("Created .dockerignore at: " +:+ dockerignorePath));;
  let dockerComposeContent :=
    generateDockerCompose appType (path_basename h absolutePath) in
  let dockerComposePath := path_join h absolutePath "docker-compose.yml" in
  write h dockerComposePath dockerComposeContent;;
  say (console_log ("Created docker-compose.yml at: " +:+ dockerComposePath));;
  say (console_log (nl +:+ "Dockerization complete! You can now build and run your Docker container with:"));;
  say (console_log ("  cd " +:+ appPath));;
  say (console_log "  docker build -t my-app .");;
  say (console_log "  docker run -p 3000:3000 my-app");;
  say (console_log (nl +:+ "Or use Docker Compose:"));;
  say (console_log "  docker-compose up").

(** The script from its first line to its last.  The two guards end the
    process with status 1; the system error of [path.resolve] or of a read
    ends it where it is thrown. *)
Definition script_run (h : host) : run unit :=
  appPath ← match argv2 h with
            | Some appPath => if bool_decide (appPath = "") then usage else mret appPath
            | None => usage
            end;
  absolutePath ← calling (call_resolve appPath) (path_resolve h appPath);
  (if fs_existsSync h absolutePath then mret ()
   else say (console_error ("Error: Directory does not exist: " +:+ absolutePath));;
        stop (process_exit 1));;
  d ← read_directory h absolutePath;
  main_execution h appPath absolutePath d.

(** The trace of the script. *)
Definition script (h : host) : list event := events (script_run h).

(** The files a trace has written, with their contents, in order. *)
Definition writes (trace : list event) : list (string * string) :=
  omap (λ e, match e with writeFileSync file data => Some (file, data) | _ => None end)
       trace.

(** ** Notions for the properties below *)

(** The text [generateReactDockerfile] returns for a build word. *)
Definition react_template (buildWord : string) : string :=
  text [
    "# Multi-stage build for React application";
    "FROM node:16-alpine AS build";
    "";
    "# Set working directory";
    "WORKDIR /app";
    "";
    "# Copy package.json and package-lock.json";
    "COPY package*.json ./";
    "";
    "# Install dependencies";
    "RUN npm ci";
    "";
    "# Copy the rest of the code";
    "COPY . .";
    "";
    "# Build the application";
    "RUN npm run " +:+ buildWord;
    "";
    "# Production stage";
    "FROM nginx:alpine AS production";
    "";
    "# Copy build files from previous stage";
    "COPY --from=build /app/build /usr/share/nginx/html";
    "";
    "# Copy nginx configuration if it exists";
    "COPY nginx.conf /etc/nginx/conf.d/default.conf 2>/dev/null || :";
    "";
    "# Expose port";
    "EXPOSE 80";
    "";
    "# Start Nginx";
    "CMD [" +:+ dq +:+ "nginx" +:+ dq +:+ ", " +:+ dq +:+ "-g" +:+ dq +:+ ", "
      +:+ dq +:+ "daemon off;" +:+ dq +:+ "]"
  ].

(** The word the react build file builds with, by the value of the build
    script. *)
Definition build_word (build : jsval) : string :=
  match build with
  | Some (JStr s) => if bool_decide (s = "") then "react-scripts" else before_space s
  | _ => "react-scripts"
  end.

(** A value on which [.split] can be called after [|| default]: a falsy
    one, which the default replaces, or a string. *)
Definition splittable (v : jsval) : Prop :=
  truthy v = false ∨ ∃ s, v = Some (JStr s).

(** The script of a manifest that decides whether the build file is
    rendered: build for react, start for node. *)
Definition deciding_script (m : json) : jsval :=
  match get (Some m) "scripts" with
  | Ok scripts =>
      match get_opt scripts
              (if truthy (merged_dependency m "react") then "build" else "start") with
      | Ok v => v
      | Throw _ => None
      end
  | Throw _ => None
  end.

(** The scripts of a manifest, [undefined] where the read throws. *)
Definition scripts_of (m : json) : jsval :=
  match get (Some m) "scripts" with
  | Ok scripts => scripts
  | Throw _ => None
  end.

(** The build file of a manifest can be rendered: the deciding script is
    falsy or a string and, for a manifest that is not react, the join of
    the script values does not throw. *)
Definition renderable (m : json) : Prop :=
  splittable (deciding_script m)
  ∧ (truthy (merged_dependency m "react") = false → printable_scripts (scripts_of m)).

(** The two guards let the run through: the argument [appPath] is given
    and not empty, it resolves to [absolutePath], and something exists
    there. *)
Definition admitted (h : host) (appPath absolutePath : string) : Prop :=
  argv2 h = Some appPath ∧ appPath ≠ ""
  ∧ path_resolve h appPath = returned absolutePath
  ∧ fs_existsSync h absolutePath = true.

(** A guard ends the run: no argument or an empty one, or an argument that
    resolves to a path at which nothing exists. *)
Definition refused (h : host) : Prop :=
  argv2 h = None ∨ argv2 h = Some ""
  ∨ ∃ appPath absolutePath,
      argv2 h = Some appPath
      ∧ path_resolve h appPath = returned absolutePath
      ∧ fs_existsSync h absolutePath = false.

(** The directory [d] is what the host shows at [absolutePath], and its
    reads return: with a package.json [d] has the content read from it;
    without one [d] has the names read from the directory and the existence
    of requirements.txt. *)
Definition observed (h : host) (absolutePath : string) (d : directory) : Prop :=
  if fs_existsSync h (path_join h absolutePath "package.json")
  then ∃ content,
         fs_readFileSync h (path_join h absolutePath "package.json") = returned content
         ∧ package_json d = Some content
  else package_json d = None
       ∧ fs_readdirSync h absolutePath = returned (listing d)
       ∧ has_requirements d
         = fs_existsSync h (path_join h absolutePath "requirements.txt").

(** The three files of a run with their contents, in the order of the
    script. *)
Definition targets (h : host) (absolutePath : string) (docs : documents)
    : list (string * string) :=
  [ (path_join h absolutePath "Dockerfile", dockerfileContent docs);
    (path_join h absolutePath ".dockerignore", dockerignoreContent docs);
    (path_join h absolutePath "docker-compose.yml", dockerComposeContent docs) ].

(** The writes that return before the first that fails. *)
Fixpoint completed (h : host) (files : list (string * string))
    : list (string * string) :=
  match files with
  | [] => []
  | (file, data) :: files =>
      match fs_writeFileSync h file data with
      | returned _ => (file, data) :: completed h files
      | failed _ => []
      end
  end.

(** The call [c] is a call the host fails with [code]. *)
Definition fails (h : host) (c : call) (code : string) : Prop :=
  match c with
  | call_resolve appPath => path_resolve h appPath = failed code
  | call_readFileSync file => fs_readFileSync h file = failed code
  | call_readdirSync dir => fs_readdirSync h dir = failed code
  | call_writeFileSync file data => fs_writeFileSync h file data = failed code
  end.

(** A character of a service name: a to z, 0 to 9 or -. *)
Definition is_service_char (c : ascii) : bool :=
  is_lower_alnum c || bool_decide (c = "-"%char).

(** Every character of [s] satisfies [p]. *)
Fixpoint all_chars (p : ascii → bool) (s : string) : bool :=
  match s with
  | "" => true
  | String c s' => p c && all_chars p s'
  end.

(** ** Proof steps *)

(** Closes the cases of a statement about the outcome of a call once the
    call has been rewritten to its outcome. *)
Local Ltac settle_outcome :=
  repeat split; intros;
  repeat match goal with
         | H : ∃ _, _ |- _ => destruct H
         | H : _ ∧ _ |- _ => destruct H
         end;
  try done; by eauto.

(** * Properties *)

(** ** The model on small inputs *)

Example split_words :
  split " " "nodemon --watch src index.js" = ["nodemon"; "--watch"; "src"; "index.js"].
Proof. reflexivity. Qed.

Example split_leading_space : split " " " node x" = [""; "node"; "x"].
Proof. reflexivity. Qed.

Example split_empty : split " " "" = [""].
Proof. reflexivity. Qed.

Example match_PORT_first : match_PORT "PORT=4000 node x.js PORT=5000" = Some "4000".
Proof. reflexivity. Qed.

Example match_PORT_needs_digit : match_PORT "PORT=x PORT=80a" = Some "80".
Proof. reflexivity. Qed.

Example match_PORT_no_match : match_PORT "port=80 PORT= 80" = None.
Proof. reflexivity. Qed.

Example toString_nested :
  toString (JArr [JStr "a"; JNull; JArr [JNum true "1"; JBool true]; JObj []])
  = Ok "a,,1,true,[object Object]".
Proof. reflexivity. Qed.

Example toString_own_toString :
  toString (JObj [("toString", JStr "x")]) = Throw TypeError
  ∧ toString (JArr [JStr "PORT=9"; JObj [("toString", JNull)]]) = Throw TypeError
  ∧ toString (JObj [("valueOf", JStr "x")]) = Ok "[object Object]".
Proof. by vm_compute. Qed.

Example join_throws :
  generateNodeDockerfile
    {| type := node;
       packageJson :=
         Some (JObj [("scripts", JObj [("start", JStr "node x.js");
                                       ("meta", JObj [("toString", JStr "x")])])]) |}
  = Throw TypeError.
Proof. reflexivity. Qed.

Example own_props_of_string :
  own_props (Some (JStr "ab")) = [("0", JStr "a"); ("1", JStr "b")].
Proof. by vm_compute. Qed.

Example spread2_override :
  spread2 (Some (JObj [("a", JStr "1"); ("b", JStr "2")])) (Some (JObj [("b", JStr "3")]))
    !! "b" = Some (JStr "3").
Proof. by vm_compute. Qed.

Example endsWith_py : endsWith "app.py" ".py" = true ∧ endsWith "app.pyc" ".py" = false.
Proof. by vm_compute. Qed.

Example toLowerCase_replace : replace_non_alnum (toLowerCase "My App!2") = "my-app-2".
Proof. by vm_compute. Qed.

Example detect_react :
  detectAppType
    (with_manifest (JObj [("devDependencies", JObj [("react", JStr "^18.2.0")]);
                          ("dependencies", JObj [("express", JStr "^4.18.0")])]))
  = Ok {| type := react;
          packageJson :=
            Some (JObj [("devDependencies", JObj [("react", JStr "^18.2.0")]);
                        ("dependencies", JObj [("express", JStr "^4.18.0")])]) |}.
Proof. by vm_compute. Qed.

Example react_build_word :
  ∃ doc,
    generateReactDockerfile
      {| type := react;
         packageJson := Some (JObj [("scripts", JObj [("build", JStr "vite build")])]) |}
    = Ok doc
    ∧ "RUN npm run vite" ∈ lines_of doc
    ∧ exposed doc = ["80"].
Proof.
  eexists. split; [by vm_compute|].
  split; [apply (bool_decide_unpack _)|]; by vm_compute.
Qed.

Example start_script_number_throws :
  generateNodeDockerfile
    {| type := node;
       packageJson := Some (JObj [("scripts", JObj [("start", JNum true "5")])]) |}
  = Throw TypeError.
Proof. reflexivity. Qed.

(** ** The error monad *)

Lemma bind_Ok {A B : Type} (r : result A) (k : A → result B) (b : B) :
  r ≫= k = Ok b ↔ ∃ a, r = Ok a ∧ k a = Ok b.
Proof.
  destruct r as [a|e]; simpl.
  - split; [eauto | intros (a' & [= ->] & H); exact H].
  - split; [discriminate | intros (a' & [=] & _)].
Qed.

(** ** Reads *)

Lemma lookup_list_to_map_assoc (l : list (string * json)) (k : string) :
  (list_to_map l : gmap string json) !! k = assoc k l.
Proof.
  induction l as [|[k' v] l IH]; simpl.
  - apply lookup_empty.
  - rewrite lookup_insert. case_bool_decide; case_decide; congruence.
Qed.

(** A read of the merged object: the value of [b] when [b] has the key,
    else the value of [a]. *)
Lemma lookup_spread2 (a b : jsval) (k : string) :
  spread2 a b !! k =
    match assoc k (own_props b) with
    | Some v => Some v
    | None => assoc k (own_props a)
    end.
Proof.
  unfold spread2. rewrite lookup_union, !lookup_list_to_map_assoc.
  destruct (assoc k (own_props b)), (assoc k (own_props a)); reflexivity.
Qed.

Lemma pretty_N_char_digit (x : N) : is_digit (pretty_N_char x) = true.
Proof. unfold pretty_N_char. repeat case_match; reflexivity. Qed.

(** The decimal text of a number starts with a digit. *)
Lemma pretty_N_go_head (x : N) (s : string) :
  (0 < x)%N → ∃ c s', pretty_N_go x s = String c s' ∧ is_digit c = true.
Proof.
  revert s. induction (N.lt_wf_0 x) as [x _ IH]. intros s Hx.
  rewrite pretty_N_go_step by done.
  destruct (decide (x `div` 10 = 0)%N) as [Hz|Hz].
  - rewrite Hz, pretty_N_go_0.
    exists (pretty_N_char (x `mod` 10)), s. split; [done|].
    apply pretty_N_char_digit.
  - apply IH; [apply N.div_lt; lia | by apply N.neq_0_lt_0].
Qed.

Lemma pretty_nat_head (i : nat) :
  ∃ c s', pretty i = String c s' ∧ is_digit c = true.
Proof.
  unfold pretty, pretty_nat, pretty, pretty_N. case_decide.
  - by exists "0"%char, "".
  - apply pretty_N_go_head. lia.
Qed.

(** An index key is no name: it starts with a digit. *)
Lemma assoc_indexed_name {A : Type} (f : A → json) (xs : list A) (i : nat)
    (c : ascii) (k : string) :
  is_digit c = false → assoc (String c k) (indexed i (f <$> xs)) = None.
Proof.
  intros Hc. revert i. induction xs as [|x xs IH]; intros i; simpl; [done|].
  destruct (pretty_nat_head i) as (c' & s' & -> & Hc').
  case_bool_decide as Heq; [|apply IH].
  injection Heq as -> _. congruence.
Qed.

(** ** Classification of a parsed manifest *)

(** On a value other than [null], reading a dependency object and looking a
    name up in its own properties is the lookup of the specification. *)
Lemma get_dependency (m : json) (field : string) (c : ascii) (k : string) :
  is_digit c = false → m ≠ JNull →
  ∃ o, get (Some m) field = Ok o
       ∧ assoc (String c k) (own_props o) = dependency m field (String c k).
Proof.
  intros Hc Hm. destruct m as [|b|z t|s|elems|fields]; try done;
    try (by exists None).
  simpl. exists (assoc field fields). split; [done|].
  destruct (assoc field fields) as [[|b|z t|s|elems|deps]|]; simpl; try done.
  - apply assoc_indexed_name, Hc.
  - rewrite <- (list_fmap_id elems). apply assoc_indexed_name, Hc.
Qed.

(** What [detectAppType] returns on a manifest that parses to a value other
    than [null]: react when the merged value of react is truthy, node
    otherwise, whatever the four framework keys are. *)
Lemma detectAppType_parsed (d : directory) (m : json) :
  package_json d = Some (Parses m) → m ≠ JNull →
  detectAppType d =
    Ok {| type := if truthy (merged_dependency m "react") then react else node;
          packageJson := Some m |}.
Proof.
  intros Hd Hm. unfold detectAppType. rewrite Hd.
  cbn [JSON_parse mbind result_bind].
  destruct (get_dependency m "dependencies" "r" "eact" eq_refl Hm) as (a & -> & Ha).
  destruct (get_dependency m "devDependencies" "r" "eact" eq_refl Hm) as (b & -> & Hb).
  cbn [mbind result_bind]. rewrite lookup_spread2, Ha, Hb.
  fold (merged_dependency m "react").
  destruct (truthy (merged_dependency m "react")); [done|].
  by case_match.
Qed.

(** On [null] the first property read throws. *)
Lemma detectAppType_null (d : directory) :
  package_json d = Some (Parses JNull) → detectAppType d = Throw TypeError.
Proof. intros Hd. unfold detectAppType. by rewrite Hd. Qed.

(** A malformed package.json ends the run with the parser's error. *)
Lemma detectAppType_malformed (d : directory) :
  package_json d = Some Malformed → detectAppType d = Throw SyntaxError.
Proof. intros Hd. unfold detectAppType. by rewrite Hd. Qed.

(** [s.endsWith(suffix)] holds exactly when [s] is some text followed by
    [suffix]. *)
Lemma endsWith_spec (s suffix : string) :
  endsWith s suffix = true ↔ ∃ before, s = before +:+ suffix.
Proof.
  induction s as [|c s IH]; simpl.
  - rewrite orb_false_r, bool_decide_eq_true. split.
    + intros <-. by exists "".
    + intros ([|??] & H); [done|discriminate].
  - rewrite orb_true_iff, bool_decide_eq_true, IH. split.
    + intros [<-|(before & ->)]; [by exists ""|by exists (String c before)].
    + intros ([|c' before] & H); [by left|right].
      injection H as -> ->. by exists before.
Qed.

(** Without a package.json the listing and requirements.txt decide. *)
Lemma detectAppType_no_manifest (d : directory) :
  package_json d = None →
  detectAppType d =
    Ok {| type := if existsb (λ file, endsWith file ".py") (listing d)
                     || has_requirements d
                  then python else generic;
          packageJson := undefined |}.
Proof. intros Hd. unfold detectAppType. rewrite Hd. by case_match. Qed.

(** A manifest with a dependency key is no [null]. *)
Lemma has_dependency_key_not_null (m : json) (name : string) :
  has_dependency_key m name → m ≠ JNull.
Proof. by intros [[v H]|[v H]] ->. Qed.

(** With the react key present and a truthy merged value, the type is
    react, whatever else the manifest holds. *)
Lemma react_key_truthy (d : directory) (m : json) :
  package_json d = Some (Parses m) →
  has_dependency_key m "react" →
  truthy (merged_dependency m "react") = true →
  detectAppType d = Ok {| type := react; packageJson := Some m |}.
Proof.
  intros Hd Hk Ht.
  rewrite (detectAppType_parsed d m Hd (has_dependency_key_not_null _ _ Hk)).
  by rewrite Ht.
Qed.

(** In particular when every version recorded for react is a string that
    is not empty. *)
Lemma react_key_nonempty_versions (d : directory) (m : json) :
  package_json d = Some (Parses m) →
  has_dependency_key m "react" →
  (∀ field v, dependency m field "react" = Some v → ∃ s, v = JStr s ∧ s ≠ "") →
  detectAppType d = Ok {| type := react; packageJson := Some m |}.
Proof.
  intros Hd Hk Hv. apply react_key_truthy; [done..|].
  unfold merged_dependency.
  destruct (dependency m "devDependencies" "react") as [v|] eqn:Hdev.
  - destruct (Hv _ _ Hdev) as (s & -> & Hs). simpl. by rewrite bool_decide_false.
  - destruct Hk as [[v Hdep]|[v Hdep]]; [|congruence].
    rewrite Hdep. destruct (Hv _ _ Hdep) as (s & -> & Hs).
    simpl. by rewrite bool_decide_false.
Qed.

(** C1 (the code departs from it).  The claim: a manifest with the key
    react in dependencies or devDependencies is classified react whatever
    the value of the key.  The script tests the merged value for truth, not
    the key for presence: with the empty string as the version of react the
    manifest has the key and is classified node. *)
Theorem react_key_with_empty_version :
  let m := JObj [("dependencies", JObj [("react", JStr "")])] in
  has_dependency_key m "react"
  ∧ detectAppType (with_manifest m) = Ok {| type := node; packageJson := Some m |}.
Proof. split; [left; by eexists | by vm_compute]. Qed.

(** The same through the merge: an empty version in devDependencies hides
    the version in dependencies. *)
Example react_key_hidden_by_devDependencies :
  let m := JObj [("dependencies", JObj [("react", JStr "^18.2.0")]);
                 ("devDependencies", JObj [("react", JStr "")])] in
  has_dependency_key m "react"
  ∧ detectAppType (with_manifest m) = Ok {| type := node; packageJson := Some m |}.
Proof. split; [left; by eexists | by vm_compute]. Qed.

(** Every outcome of [detectAppType]: the parser's error on a malformed
    package.json and only there, a TypeError on the manifest [null] and only
    there, and a result in every other case. *)
Lemma detectAppType_outcomes (d : directory) :
  (detectAppType d = Throw SyntaxError ↔ package_json d = Some Malformed)
  ∧ (detectAppType d = Throw TypeError ↔ package_json d = Some (Parses JNull))
  ∧ (returns (detectAppType d) ↔
       package_json d ≠ Some Malformed ∧ package_json d ≠ Some (Parses JNull)).
Proof.
  unfold returns.
  destruct (package_json d) as [[|m]|] eqn:Hd.
  - rewrite (detectAppType_malformed d Hd). settle_outcome.
  - destruct m as [|b|z t|s|elems|fields];
      [rewrite (detectAppType_null d Hd)
      |rewrite (detectAppType_parsed d _ Hd) by done..]; settle_outcome.
  - rewrite (detectAppType_no_manifest d Hd). settle_outcome.
Qed.

(** C2 (the code departs from it).  The claim: [detectAppType] fails
    exactly on a package.json that is not well formed, and returns a result
    in every other case.  The text null is well-formed JSON, [JSON.parse]
    returns [null] for it, and the read of its dependencies throws a
    TypeError: no result, and not the parser's error. *)
Theorem null_manifest_throws :
  JSON_parse (Parses JNull) = Ok JNull
  ∧ detectAppType (with_manifest JNull) = Throw TypeError
  ∧ ¬ returns (detectAppType (with_manifest JNull)).
Proof. split; [done|]. split; [done|]. by intros [a Ha]. Qed.

(** A parsed manifest other than [null] without the react key is
    classified node, with or without a framework key. *)
Lemma no_react_key_is_node (d : directory) (m : json) :
  package_json d = Some (Parses m) → m ≠ JNull →
  ¬ has_dependency_key m "react" →
  detectAppType d = Ok {| type := node; packageJson := Some m |}.
Proof.
  intros Hd Hm Hk. rewrite (detectAppType_parsed d m Hd Hm).
  unfold has_dependency_key in Hk. unfold merged_dependency.
  destruct (dependency m "devDependencies" "react") eqn:Hdev; [naive_solver|].
  destruct (dependency m "dependencies" "react") eqn:Hdep; [naive_solver|].
  done.
Qed.

(** C5 (the code departs from it).  The claim: every manifest that parses
    and has no react key is classified node.  The manifest [null] parses and
    has no key at all; the script throws on it instead of returning node. *)
Theorem null_manifest_without_react_key :
  ¬ has_dependency_key JNull "react"
  ∧ ¬ has_dependency_key JNull "express"
  ∧ detectAppType (with_manifest JNull) ≠ Ok {| type := node; packageJson := Some JNull |}.
Proof. split; [by intros [[??]|[??]]|]. split; [by intros [[??]|[??]]|]. done. Qed.

(** ** Lines *)

Lemma append_String (c : ascii) (a b : string) :
  String c a +:+ b = String c (a +:+ b).
Proof. reflexivity. Qed.

Lemma append_nil_l (b : string) : "" +:+ b = b.
Proof. reflexivity. Qed.

Lemma append_assoc (a b c : string) : (a +:+ b) +:+ c = a +:+ b +:+ c.
Proof. induction a as [|x a IH]; [done|]. by rewrite !append_String, IH. Qed.

Lemma occurs_append (c : ascii) (a b : string) :
  occurs c (a +:+ b) = occurs c a || occurs c b.
Proof.
  induction a as [|x a IH]; [done|].
  rewrite append_String. simpl. by rewrite IH, orb_assoc.
Qed.

(** A piece without the separator, followed by the separator, is the first
    piece of the split. *)
Lemma split_append (sep : ascii) (a b : string) :
  occurs sep a = false →
  split sep (a +:+ String sep b) = a :: split sep b.
Proof.
  induction a as [|x a IH]; intros Ha.
  - rewrite append_nil_l. simpl. by rewrite bool_decide_true.
  - simpl in Ha. apply orb_false_iff in Ha as [Hx Ha].
    rewrite append_String. simpl. rewrite Hx, (IH Ha). done.
Qed.

Lemma text_cons (l : string) (ls : list string) :
  text (l :: ls) = l +:+ String "010" (text ls).
Proof. reflexivity. Qed.

(** The lines of a text whose first lines hold no line feed are these
    lines, followed by the lines of the rest. *)
Lemma lines_of_text_app (ls rest : list string) :
  Forall (λ l, occurs "010" l = false) ls →
  lines_of (text (ls ++ rest)) = ls ++ lines_of (text rest).
Proof.
  unfold lines_of. induction 1 as [|l ls Hl _ IH]; [done|].
  rewrite <- app_comm_cons, text_cons, (split_append _ _ _ Hl), IH. done.
Qed.

Lemma lines_of_text (ls : list string) :
  Forall (λ l, occurs "010" l = false) ls →
  lines_of (text ls) = ls ++ [""].
Proof.
  intros Hls. rewrite <- (app_nil_r ls) at 1.
  by rewrite (lines_of_text_app ls [] Hls).
Qed.

Lemma strip_prefix_append (p s : string) : strip_prefix p (p +:+ s) = Some s.
Proof.
  induction p as [|c p IH]; [by destruct s|].
  rewrite append_String. simpl. by rewrite bool_decide_true.
Qed.

(** ** The regular expression *)

Lemma append_eq_nil (a b : string) : "" = a +:+ b → b = "".
Proof. by destruct a. Qed.

Lemma strip_prefix_spec (p s r : string) :
  strip_prefix p s = Some r ↔ s = p +:+ r.
Proof.
  revert s. induction p as [|c p IH]; intros s.
  - rewrite append_nil_l. destruct s; simpl; split; congruence.
  - rewrite append_String. destruct s as [|c' s]; simpl; [split; discriminate|].
    case_bool_decide as Hc.
    + subst c'. rewrite IH. split; congruence.
    + split; [discriminate|congruence].
Qed.

Lemma digits_decompose (s : string) : ∃ rest, s = digits s +:+ rest.
Proof.
  induction s as [|c s [rest IH]]; [by exists ""|].
  simpl. destruct (is_digit c).
  - exists rest. by rewrite append_String, <- IH.
  - by exists (String c s).
Qed.

Lemma digits_all_digits (s : string) : all_digits (digits s) = true.
Proof.
  induction s as [|c s IH]; [done|]. simpl.
  destruct (is_digit c) eqn:Hc; [|done]. simpl. by rewrite Hc.
Qed.

Lemma match_here_spec (s ds : string) : match_here s = Some ds ↔ match_at s ds.
Proof.
  unfold match_here, match_at. split.
  - destruct (strip_prefix "PORT=" s) as [r|] eqn:Hr; [|done]. simpl.
    apply strip_prefix_spec in Hr as ->.
    case_bool_decide as Hd; [done|]. intros [= <-].
    destruct (digits_decompose r) as [rest Hrest].
    exists rest. by rewrite <- Hrest.
  - intros (rest & -> & Hne & Hds).
    rewrite strip_prefix_append. simpl. rewrite Hds.
    by rewrite bool_decide_false.
Qed.

Lemma match_PORT_unfold (s : string) :
  match_PORT s =
    match match_here s with
    | Some ds => Some ds
    | None => match s with "" => None | String _ s' => match_PORT s' end
    end.
Proof. by destruct s. Qed.

(** [match_PORT] finds the leftmost match: the subject is some text
    followed by a match, and no match starts inside that text. *)
Lemma match_PORT_Some (s ds : string) :
  match_PORT s = Some ds ↔
  ∃ before rest, s = before +:+ rest ∧ match_at rest ds
    ∧ ∀ b1 b2, before = b1 +:+ b2 → b2 ≠ "" → match_here (b2 +:+ rest) = None.
Proof.
  split.
  - induction s as [|c s IH]; rewrite match_PORT_unfold.
    + destruct (match_here "") as [ds'|] eqn:Hm; [|done].
      intros [= ->]. exists "", "". split; [done|].
      split; [by apply match_here_spec|].
      by intros b1 b2 ->%append_eq_nil.
    + destruct (match_here (String c s)) as [ds'|] eqn:Hm.
      * intros [= ->]. exists "", (String c s). split; [done|].
        split; [by apply match_here_spec|].
        by intros b1 b2 ->%append_eq_nil.
      * intros (before & rest & -> & Hat & Hleft)%IH.
        exists (String c before), rest. split; [done|]. split; [done|].
        intros [|c1 b1] b2 Hb Hne.
        -- rewrite append_nil_l in Hb. by subst b2.
        -- rewrite append_String in Hb. injection Hb as -> ->.
           by apply (Hleft b1 b2).
  - intros (before & rest & -> & Hat & Hleft).
    induction before as [|c before IH].
    + rewrite append_nil_l, match_PORT_unfold.
      apply match_here_spec in Hat. by rewrite Hat.
    + rewrite match_PORT_unfold, (Hleft "" (String c before)) by done.
      rewrite append_String. apply IH.
      intros b1 b2 -> Hne. by apply (Hleft (String c b1) b2).
Qed.

(** [match_PORT] finds nothing exactly when no match starts anywhere. *)
Lemma match_PORT_None (s : string) :
  match_PORT s = None ↔ ∀ before rest, s = before +:+ rest → match_here rest = None.
Proof.
  split.
  - induction s as [|c s IH]; rewrite match_PORT_unfold.
    + destruct (match_here "") eqn:Hm; [done|].
      by intros _ before rest ->%append_eq_nil.
    + destruct (match_here (String c s)) eqn:Hm; [done|].
      intros Hs [|c' before] rest Heq.
      * rewrite append_nil_l in Heq. by subst rest.
      * rewrite append_String in Heq. injection Heq as -> ->.
        by apply (IH Hs before rest).
  - intros Hno. induction s as [|c s IH]; rewrite match_PORT_unfold.
    + by rewrite (Hno "" "").
    + rewrite (Hno "" (String c s)) by done. apply IH.
      intros before rest ->. by apply (Hno (String c before) rest).
Qed.

Lemma match_PORT_all_digits (s ds : string) :
  match_PORT s = Some ds → all_digits ds = true.
Proof.
  intros (before & rest & _ & (r & _ & _ & <-) & _)%match_PORT_Some.
  apply digits_all_digits.
Qed.

Lemma all_digits_occurs (c : ascii) (s : string) :
  is_digit c = false → all_digits s = true → occurs c s = false.
Proof.
  intros Hc. induction s as [|x s IH]; [done|]. simpl.
  intros [Hx Hs]%andb_true_iff. rewrite (IH Hs), orb_false_r.
  apply bool_decide_eq_false. congruence.
Qed.

(** ** The node build file *)

Lemma get_returns (v : jsval) (k k' : string) (o : jsval) :
  get v k = Ok o → ∃ o', get v k' = Ok o'.
Proof. destruct v as [[]|]; simpl; intros [=]; by eexists. Qed.

Lemma get_opt_returns (v : jsval) (k : string) : ∃ o, get_opt v k = Ok o.
Proof. destruct v as [[]|]; simpl; by eexists. Qed.

(** Induction on a JSON value, with the hypothesis for the elements of an
    array. *)
Lemma json_nested_ind (P : json → Prop) :
  P JNull → (∀ b, P (JBool b)) → (∀ z t, P (JNum z t)) → (∀ s, P (JStr s)) →
  (∀ elems, Forall P elems → P (JArr elems)) →
  (∀ props, P (JObj props)) →
  ∀ v, P v.
Proof.
  intros Hnull Hbool Hnum Hstr Harr Hobj. fix IH 1.
  intros [|b|z t|s|elems|props];
    [exact Hnull|apply Hbool|apply Hnum|apply Hstr| |apply Hobj].
  apply Harr. induction elems as [|x elems IHelems]; constructor;
    [apply IH|exact IHelems].
Qed.

Lemma toString_JArr (elems : list json) :
  toString (JArr elems) = (texts ← all_ok (elem_text <$> elems); Ok (join "," texts)).
Proof. reflexivity. Qed.

(** What [ToString] does, by [printable]: it returns on a printable value
    and throws a TypeError on any other. *)
Lemma toString_printable (v : json) :
  if printable v then returns (toString v) else toString v = Throw TypeError.
Proof.
  induction v as [|b|z t|s|elems IH|props] using json_nested_ind;
    try (by eexists); [by destruct b; eexists| |].
  - rewrite toString_JArr. simpl printable.
    assert (if forallb printable elems
            then returns (all_ok (elem_text <$> elems))
            else all_ok (elem_text <$> elems) = Throw TypeError) as Hall.
    { induction IH as [|x elems Hx _ IHelems]; [by eexists|].
      simpl forallb. rewrite fmap_cons. simpl all_ok.
      assert (if printable x then returns (elem_text x)
              else elem_text x = Throw TypeError) as Hx'.
      { destruct x; try done. by eexists. }
      clear Hx. destruct (printable x); simpl.
      - destruct Hx' as [t ->]. cbn [mbind result_bind].
        destruct (forallb printable elems).
        + destruct IHelems as [ts ->]. by eexists.
        + by rewrite IHelems.
      - by rewrite Hx'. }
    destruct (forallb printable elems).
    + destruct Hall as [ts ->]. by eexists.
    + by rewrite Hall.
  - simpl. destruct (assoc "toString" props); [done|by eexists].
Qed.

(** What [join] does on JSON values, by [printable]. *)
Lemma Array_join_printable (sep : string) (l : list json) :
  if forallb printable l then returns (Array_join sep l)
  else Array_join sep l = Throw TypeError.
Proof.
  pose proof (toString_printable (JArr l)) as H.
  rewrite toString_JArr in H. simpl printable in H. unfold Array_join.
  destruct (forallb printable l).
  - destruct H as [t H]. destruct (all_ok (elem_text <$> l)); [by eexists|done].
  - by destruct (all_ok (elem_text <$> l)).
Qed.

Lemma all_ok_strings (cmds : list string) :
  all_ok (elem_text <$> (JStr <$> cmds)) = Ok cmds.
Proof.
  induction cmds as [|c cmds IH]; [done|].
  rewrite !fmap_cons. simpl all_ok. by rewrite IH.
Qed.

Lemma Array_join_strings (sep : string) (cmds : list string) :
  Array_join sep (JStr <$> cmds) = Ok (join sep cmds).
Proof. unfold Array_join. by rewrite all_ok_strings. Qed.

(** What the scan of the port does, by [printable_scripts]. *)
Lemma scanned_port_printable (scripts : jsval) :
  (printable_scripts scripts → returns (scanned_port scripts))
  ∧ (¬ printable_scripts scripts → scanned_port scripts = Throw TypeError).
Proof.
  unfold printable_scripts, scanned_port.
  destruct (truthy scripts); [|split; [by eexists|intros []; done]].
  pose proof (Array_join_printable " " (values_of scripts)) as H.
  destruct (forallb printable (values_of scripts)).
  - destruct H as [t ->]. split; [by eexists|intros []; done].
  - rewrite H. split; [by intros H'; specialize (H' eq_refl)|done].
Qed.

Lemma scanned_port_throws (scripts : jsval) (e : exn) :
  scanned_port scripts = Throw e → e = TypeError.
Proof.
  unfold scanned_port. destruct (truthy scripts); [|done].
  pose proof (Array_join_printable " " (values_of scripts)) as H.
  destruct (forallb printable (values_of scripts)).
  - by destruct H as [t ->].
  - rewrite H. by intros [= <-].
Qed.

(** The scanned port is a run of digits that is not empty. *)
Lemma scanned_port_all_digits (scripts : jsval) (port : string) :
  scanned_port scripts = Ok port → port ≠ "" ∧ all_digits port = true.
Proof.
  unfold scanned_port. destruct (truthy scripts); [|by intros [= <-]].
  destruct (Array_join " " (values_of scripts)) as [t|e]; [|done].
  cbn [mbind result_bind]. intros [= <-].
  destruct (match_PORT t) as [ds|] eqn:Hds; [|done]. simpl. split.
  - by apply match_PORT_Some in Hds as (before & rest & _ & (r & _ & Hne & _) & _).
  - by apply match_PORT_all_digits in Hds.
Qed.

Lemma scanned_port_no_line_feed (scripts : jsval) (port : string) :
  scanned_port scripts = Ok port → occurs "010" port = false.
Proof.
  intros [_ Hd]%scanned_port_all_digits. by apply all_digits_occurs.
Qed.

(** The calls of [generateNodeDockerfile] on a result whose manifest has
    the value [scripts] for its scripts, and these the value [start] for
    the start script. *)
Section node_build_file.
Context (a : appType) (scripts start : jsval).
Hypothesis Hscripts : get (packageJson a) "scripts" = Ok scripts.
Hypothesis Hstart : get_opt scripts "start" = Ok start.

(** [node_port] is the scan of the port. *)
Lemma node_port_scanned : node_port a = scanned_port scripts.
Proof using Hscripts.
  clear Hstart. unfold node_port, scanned_port, values_of.
  rewrite Hscripts. cbn [mbind result_bind].
  destruct (truthy scripts) eqn:Ht; [|done].
  destruct scripts as [[]|]; try done; simpl;
    (destruct (Array_join _ _); [|done]); cbn [mbind result_bind]; by case_match.
Qed.

(** [generateNodeDockerfile] up to its two calls that can still throw, the
    join of the script values and the split of the start script. *)
Lemma generateNodeDockerfile_unfold :
  generateNodeDockerfile a =
    (port ← scanned_port scripts;
     startWords ← call_split (or_else start (Some (JStr "node server.js"))) " ";
     Ok (node_template port (item0 startWords))).
Proof using Hscripts Hstart.
  unfold generateNodeDockerfile, script_of.
  rewrite Hscripts. cbn [mbind result_bind]. rewrite Hstart. cbn [mbind result_bind].
  destruct (get_opt_returns scripts "dev") as [dev ->].
  destruct (get_opt_returns scripts "develop") as [develop ->].
  destruct (get_returns _ _ "main" _ Hscripts) as [main ->].
  rewrite node_port_scanned.
  cbn [mbind result_bind]. by destruct (truthy dev).
Qed.

(** A start script that is not falsy and no string makes the call throw:
    there is no build file. *)
Lemma generateNodeDockerfile_throws :
  truthy start = true → (∀ s, start ≠ Some (JStr s)) →
  generateNodeDockerfile a = Throw TypeError.
Proof using Hscripts Hstart.
  intros Ht Hs. rewrite generateNodeDockerfile_unfold.
  destruct (scanned_port scripts) as [port|e] eqn:Hport.
  - cbn [mbind result_bind]. unfold or_else. rewrite Ht.
    destruct start as [[| | |s| |]|]; try done. by destruct (Hs s).
  - by apply scanned_port_throws in Hport as ->.
Qed.

End node_build_file.

Lemma split_nonempty (sep : ascii) (s : string) : split sep s ≠ [].
Proof.
  destruct s as [|c s]; simpl; [done|].
  case_bool_decide; [done|]. by destruct (split sep s).
Qed.

(** The first piece of a split on spaces is the text before the first
    space. *)
Lemma item0_split_space (s : string) : item0 (split " " s) = before_space s.
Proof.
  unfold item0. induction s as [|c s IH]; simpl; [done|].
  case_bool_decide; [done|].
  destruct (split " " s) as [|w ws] eqn:Hsp; [by destruct (split_nonempty " " s)|].
  simpl in *. by rewrite IH.
Qed.

(** [before_space s] holds no space, and [s] is it alone or it followed by
    a space and more. *)
Lemma before_space_spec (s : string) :
  occurs " " (before_space s) = false
  ∧ (s = before_space s ∨ ∃ rest, s = before_space s +:+ String " " rest).
Proof.
  induction s as [|c s [IH1 IH2]]; simpl; [by split; [|left]|].
  case_bool_decide as Hc; simpl.
  - subst c. split; [done|]. right. by exists s.
  - rewrite bool_decide_false, IH1 by done. split; [done|].
    destruct IH2 as [IH2|[rest IH2]]; [left|right; exists rest];
      by rewrite ?append_String, <- IH2.
Qed.

(** With a start script that is absent or a string, the node build file is
    rendered, on the scanned port and the start word. *)
Lemma generateNodeDockerfile_string_start
    (a : appType) (scripts start : jsval) (port : string) :
  get (packageJson a) "scripts" = Ok scripts →
  get_opt scripts "start" = Ok start →
  start = None ∨ (∃ s, start = Some (JStr s)) →
  scanned_port scripts = Ok port →
  generateNodeDockerfile a = Ok (node_template port (start_word start)).
Proof.
  intros Hs Hstart Hstr Hport.
  rewrite (generateNodeDockerfile_unfold a scripts start Hs Hstart), Hport.
  cbn [mbind result_bind].
  destruct Hstr as [->|[s ->]]; [done|].
  unfold or_else, start_word. simpl.
  case_bool_decide; simpl; [done|]. by rewrite item0_split_space.
Qed.

Lemma start_word_no_space (start : jsval) : occurs " " (start_word start) = false.
Proof.
  destruct start as [[| | |s| |]|]; try done. simpl.
  case_bool_decide; [done|]. apply before_space_spec.
Qed.

(** A text that starts with a piece without the separator: the piece
    joins the first piece of the rest. *)
Lemma split_append_l (sep : ascii) (a b : string) :
  occurs sep a = false →
  split sep (a +:+ b) =
    match split sep b with
    | [] => [a]
    | w :: ws => (a +:+ w) :: ws
    end.
Proof.
  induction a as [|x a IH]; intros Ha.
  - rewrite append_nil_l. destruct (split sep b) eqn:Hb; [|done].
    by destruct (split_nonempty sep b).
  - simpl in Ha. apply orb_false_iff in Ha as [Hx Ha].
    rewrite append_String. simpl. rewrite Hx, (IH Ha).
    by destruct (split sep b).
Qed.

(** The pieces of a text without the character [c] are without it. *)
Lemma occurs_split (sep c : ascii) (s l : string) :
  occurs c s = false → l ∈ split sep s → occurs c l = false.
Proof.
  revert l. induction s as [|x s IH]; intros l; simpl.
  - by intros _ ->%list_elem_of_singleton.
  - intros [Hx Hs]%orb_false_iff. destruct (bool_decide (x = sep)).
    + intros [->|Hl]%elem_of_cons; [done|by apply IH].
    + destruct (split sep s) as [|w ws] eqn:Hsp.
      * intros ->%list_elem_of_singleton. simpl. by rewrite Hx.
      * intros [->|Hl]%elem_of_cons.
        -- simpl. rewrite Hx. apply (IH w Hs). by left.
        -- apply (IH l Hs). by right.
Qed.

(** A line without a space is no EXPOSE instruction. *)
Lemma strip_prefix_EXPOSE_no_space (l : string) :
  occurs " " l = false → strip_prefix "EXPOSE " l = None.
Proof.
  intros Hl. destruct (strip_prefix "EXPOSE " l) as [r|] eqn:Hr; [|done].
  apply strip_prefix_spec in Hr as ->. by rewrite occurs_append in Hl.
Qed.

Lemma omap_None {A B : Type} (f : A → option B) (l : list A) :
  (∀ x, x ∈ l → f x = None) → omap f l = [].
Proof.
  induction l as [|x l IH]; intros Hf; [done|]. simpl.
  rewrite (Hf x) by left. apply IH. intros y Hy. apply Hf. by right.
Qed.

(** The node build file exposes one port, the one it was rendered on. *)
Lemma exposed_node_template (port word : string) :
  occurs "010" port = false →
  occurs " " word = false →
  exposed (node_template port word) = [port].
Proof.
  intros Hport Hword. unfold exposed, node_template.
  match goal with
  | |- context [text (?l1 :: ?l2 :: ?l3 :: ?l4 :: ?l5 :: ?l6 :: ?l7 :: ?l8 :: ?l9
                       :: ?l10 :: ?l11 :: ?l12 :: ?l13 :: ?l14 :: ?l15 :: ?l16
                       :: ?l17 :: ?l18 :: ?l19 :: ?rest)] =>
      change (text (l1 :: l2 :: l3 :: l4 :: l5 :: l6 :: l7 :: l8 :: l9
                      :: l10 :: l11 :: l12 :: l13 :: l14 :: l15 :: l16
                      :: l17 :: l18 :: l19 :: rest))
        with (text ([l1; l2; l3; l4; l5; l6; l7; l8; l9; l10; l11; l12; l13;
                     l14; l15; l16; l17; l18; l19] ++ rest))
  end.
  rewrite lines_of_text_app.
  2:{ repeat first [apply Forall_nil | apply Forall_cons_2]; try reflexivity.
      by rewrite occurs_append. }
  rewrite omap_app.
  match goal with
  | |- ?exposed_before ++ ?exposed_after = _ =>
      change exposed_before with [port]; enough (exposed_after = []) as -> by done
  end.
  unfold lines_of, text. rewrite !append_assoc.
  rewrite <- !(append_assoc _ _ (word +:+ _)).
  rewrite split_append_l by reflexivity.
  assert (occurs " " (word +:+ dq +:+ "]" +:+ nl +:+ "") = false) as Hrest.
  { by rewrite occurs_append, Hword. }
  destruct (split "010" _) as [|w ws] eqn:Hsp; [done|].
  simpl. apply omap_None. intros l Hl.
  apply strip_prefix_EXPOSE_no_space, (occurs_split "010" " " _ l Hrest).
  rewrite Hsp. by right.
Qed.

Lemma assoc_elem_of (k : string) (props : list (string * json)) (v : json) :
  assoc k props = Some v → v ∈ props.*2.
Proof.
  induction props as [|[k' v'] props IH]; simpl; [done|].
  case_bool_decide; [intros [= ->]; left | intros H'; right; by apply IH].
Qed.

(** The scripts of a manifest with script commands: the start script is
    absent or a string, and the scanned port is the port of the first match
    in the commands joined by spaces. *)
Lemma script_commands_scripts (m : json) (cmds : list string) :
  script_commands m cmds →
  ∃ scripts start,
    get (Some m) "scripts" = Ok scripts
    ∧ get_opt scripts "start" = Ok start
    ∧ (start = None ∨ ∃ s, start = Some (JStr s))
    ∧ scanned_port scripts = Ok (default "3000" (match_PORT (join " " cmds))).
Proof.
  intros [Hs|props cmds' Hs Hprops].
  - exists None, None. split; [done|]. split; [done|]. split; [by left|done].
  - exists (Some (JObj props)), (assoc "start" props).
    split; [done|]. split; [done|]. split.
    + destruct (assoc "start" props) as [v|] eqn:Hv; [right|by left].
      apply assoc_elem_of in Hv. rewrite Hprops in Hv.
      apply list_elem_of_fmap in Hv as (s & -> & _). by exists s.
    + unfold scanned_port, values_of. simpl. rewrite Hprops.
      by rewrite Array_join_strings.
Qed.

(** C3, as amended.  For every node result whose manifest has the script
    commands [cmds], the build file is rendered and the port it exposes is
    the one of the first match of PORT= followed by digits in the commands
    joined by single spaces, and 3000 when there is no match. *)
Theorem node_build_file_port (m : json) (cmds : list string) :
  script_commands m cmds →
  ∃ doc, generateNodeDockerfile {| type := node; packageJson := Some m |} = Ok doc
         ∧ exposed doc = [default "3000" (match_PORT (join " " cmds))].
Proof.
  intros (scripts & start & Hs & Hstart & Hstr & Hport)%script_commands_scripts.
  eexists. split.
  - by apply (generateNodeDockerfile_string_start _ scripts start).
  - apply exposed_node_template;
      [by apply (scanned_port_no_line_feed scripts) | apply start_word_no_space].
Qed.

(** The example of the claim: the port 4000 of the dev script. *)
Lemma node_build_file_port_4000 :
  script_commands
    (JObj [("scripts", JObj [("dev", JStr "PORT=4000 node x.js");
                             ("start", JStr "node y.js")])])
    ["PORT=4000 node x.js"; "node y.js"]
  ∧ ∃ doc,
      generateNodeDockerfile
        {| type := node;
           packageJson :=
             Some (JObj [("scripts", JObj [("dev", JStr "PORT=4000 node x.js");
                                           ("start", JStr "node y.js")])]) |}
      = Ok doc
      ∧ exposed doc = ["4000"].
Proof.
  assert (script_commands
    (JObj [("scripts", JObj [("dev", JStr "PORT=4000 node x.js");
                             ("start", JStr "node y.js")])])
    ["PORT=4000 node x.js"; "node y.js"]) as H.
  { eapply scripts_object; reflexivity. }
  split; [exact H|].
  exact (node_build_file_port _ _ H).
Defined.

(** Without a PORT= anywhere the default 3000 is exposed. *)
Example node_build_file_port_default :
  ∃ doc,
    generateNodeDockerfile
      {| type := node;
         packageJson := Some (JObj [("scripts", JObj [("start", JStr "node y.js")])]) |}
    = Ok doc
    ∧ exposed doc = ["3000"].
Proof. eexists. split; [by vm_compute|by vm_compute]. Qed.

(** C3 as stated fails: the commands are joined by spaces before the scan,
    not concatenated.  With the scripts PORT=40 and 00 the concatenation
    reads PORT=4000; the build file exposes 40. *)
Lemma port_scan_of_concatenation_differs :
  let m := JObj [("scripts", JObj [("start", JStr "PORT=40"); ("test", JStr "00")])] in
  script_commands m ["PORT=40"; "00"]
  ∧ port_of_concatenation ["PORT=40"; "00"] = "4000"
  ∧ ∃ doc,
      generateNodeDockerfile {| type := node; packageJson := Some m |} = Ok doc
      ∧ exposed doc = ["40"]
      ∧ exposed doc ≠ [port_of_concatenation ["PORT=40"; "00"]].
Proof.
  split; [eapply scripts_object; reflexivity|]. split; [by vm_compute|].
  eexists. split; [by vm_compute|]. split; by vm_compute.
Qed.

(** C7, as amended.  For every node result whose manifest has script
    commands (no scripts, or scripts that are all strings), the build file
    is rendered and its launch command is npm run followed by the start
    word: the text of the start script before its first space when the
    script is a string that is not empty, and node, the first word of the
    default, otherwise. *)
Theorem node_build_file_start_word (m : json) (cmds : list string) (start : jsval) :
  script_commands m cmds →
  script_of {| type := node; packageJson := Some m |} "start" = Ok start →
  ∃ port,
    generateNodeDockerfile {| type := node; packageJson := Some m |}
    = Ok (node_template port (start_word start)).
Proof.
  intros (scripts & start' & Hs & Hstart & Hstr & Hport)%script_commands_scripts.
  unfold script_of. simpl packageJson. rewrite Hs. cbn [mbind result_bind].
  rewrite Hstart. intros [= <-].
  eexists. by apply (generateNodeDockerfile_string_start _ scripts start').
Qed.

(** The example of the claim: the start word nodemon. *)
Lemma node_build_file_start_word_nodemon :
  script_commands
    (JObj [("scripts", JObj [("start", JStr "nodemon --watch src index.js")])])
    ["nodemon --watch src index.js"]
  ∧ ∃ port,
      generateNodeDockerfile
        {| type := node;
           packageJson :=
             Some (JObj [("scripts", JObj [("start", JStr "nodemon --watch src index.js")])]) |}
      = Ok (node_template port "nodemon").
Proof.
  assert (script_commands
            (JObj [("scripts", JObj [("start", JStr "nodemon --watch src index.js")])])
            ["nodemon --watch src index.js"]) as H.
  { eapply scripts_object; reflexivity. }
  split; [exact H|].
  exact (node_build_file_start_word _ _ (Some (JStr "nodemon --watch src index.js"))
           H eq_refl).
Defined.

(** C7 as stated fails: only the space delimits, and an empty start script
    counts as none.  The start script node, tab, server.js has the first
    token node; the build file launches the whole of it.  The start script
    that is the empty string is present and has no token; the build file
    launches the node of the default. *)
Lemma start_word_is_not_first_token :
  let start := "node" +:+ tab +:+ "server.js" in
  let m := JObj [("scripts", JObj [("start", JStr start)])] in
  let m' := JObj [("scripts", JObj [("start", JStr "")])] in
  (first_token start = Some "node"
   ∧ generateNodeDockerfile {| type := node; packageJson := Some m |}
     = Ok (node_template "3000" start)
   ∧ node_template "3000" start ≠ node_template "3000" "node")
  ∧ (first_token "" = None
     ∧ generateNodeDockerfile {| type := node; packageJson := Some m' |}
       = Ok (node_template "3000" "node")).
Proof.
  split; [split; [by vm_compute|]; split; by vm_compute|].
  split; by vm_compute.
Qed.

(** ** The compose file *)

Lemma replace_toLowerCase (basename : string) :
  replace_non_alnum (toLowerCase basename) = service_name basename.
Proof. induction basename as [|c s IH]; [done|]. simpl. by rewrite IH. Qed.

Lemma service_char_no_line_feed (c : ascii) : service_char c ≠ "010"%char.
Proof.
  unfold service_char. destruct (is_lower_alnum (lower_char c)) eqn:Hc; [|done].
  by intros Heq; rewrite Heq in Hc.
Qed.

Lemma service_name_no_line_feed (basename : string) :
  occurs "010" (service_name basename) = false.
Proof.
  induction basename as [|c s IH]; [done|]. simpl. rewrite IH, orb_false_r.
  apply bool_decide_eq_false, service_char_no_line_feed.
Qed.

Lemma compose_port_no_line_feed (k : app_kind) : occurs "010" (compose_port k) = false.
Proof. by destruct k. Qed.

Lemma generateDockerCompose_template (a : appType) (basename : string) :
  generateDockerCompose a basename
  = compose_template (service_name basename) (compose_port (type a)).
Proof.
  unfold generateDockerCompose. rewrite replace_toLowerCase.
  by destruct (type a).
Qed.

(** The lines of the compose text for a service name and a port that hold
    no line feed. *)
Lemma lines_of_compose_template (appName port : string) :
  occurs "010" appName = false → occurs "010" port = false →
  lines_of (compose_template appName port) =
    [ "version: '3'";
      "services:";
      "  " +:+ appName +:+ ":";
      "    build: .";
      "    ports:";
      port_line port;
      "    volumes:";
      "      - .:/app";
      "    # environment:";
      "    #   - NODE_ENV=development";
      "" ].
Proof.
  intros Hname Hport. unfold compose_template.
  rewrite lines_of_text; [done|].
  repeat first [apply Forall_nil | apply Forall_cons_2]; try reflexivity.
  - by rewrite !occurs_append, Hname.
  - by rewrite !occurs_append, Hport.
Qed.

Lemma lines_of_generateDockerCompose (a : appType) (basename : string) :
  lines_of (generateDockerCompose a basename) =
    lines_of (compose_template (service_name basename) (compose_port (type a))).
Proof. by rewrite generateDockerCompose_template. Qed.

(** C4, as amended.  For every result and directory name the compose file
    is these lines: one service, keyed by the service name, built from the
    directory, with one port mapping in double quotes, a bind mount of the
    directory on /app and a commented environment; the port is 80 for
    react, 8000 for python and the fixed 3000 for node and generic. *)
Theorem compose_file_lines (a : appType) (basename : string) :
  lines_of (generateDockerCompose a basename) =
    [ "version: '3'";
      "services:";
      "  " +:+ service_name basename +:+ ":";
      "    build: .";
      "    ports:";
      port_line (compose_port (type a));
      "    volumes:";
      "      - .:/app";
      "    # environment:";
      "    #   - NODE_ENV=development";
      "" ].
Proof.
  rewrite lines_of_generateDockerCompose.
  apply lines_of_compose_template;
    [apply service_name_no_line_feed | apply compose_port_no_line_feed].
Qed.

(** C4 as stated fails for node: the compose file does not take the port
    of the PORT= scan.  With the start script PORT=4000 node x.js the
    build file exposes 4000 and the compose file maps 3000 to 3000. *)
Lemma compose_port_is_not_scanned :
  let a := {| type := node;
              packageJson :=
                Some (JObj [("scripts", JObj [("start", JStr "PORT=4000 node x.js")])]) |} in
  node_port a = Ok "4000"
  ∧ (∃ doc, generateNodeDockerfile a = Ok doc ∧ exposed doc = ["4000"])
  ∧ port_line "3000" ∈ lines_of (generateDockerCompose a "app")
  ∧ port_line "4000" ∉ lines_of (generateDockerCompose a "app").
Proof.
  split; [by vm_compute|]. split; [eexists; split; by vm_compute|].
  split; apply (bool_decide_unpack _); by vm_compute.
Qed.

(** C8.  The compose file is keyed by the service name, the directory name
    with every character put in lower case and then replaced by - unless it
    is one of a to z or 0 to 9; My App!2 gives my-app-2. *)
Theorem compose_service_name (a : appType) (basename : string) :
  lines_of (generateDockerCompose a basename) !! 2
    = Some ("  " +:+ replace_non_alnum (toLowerCase basename) +:+ ":")
  ∧ String.length (replace_non_alnum (toLowerCase basename)) = String.length basename
  ∧ (∀ i c, String.get i basename = Some c →
            String.get i (replace_non_alnum (toLowerCase basename))
            = Some (service_char c))
  ∧ replace_non_alnum (toLowerCase "My App!2") = "my-app-2".
Proof.
  rewrite lines_of_generateDockerCompose, lines_of_compose_template
    by (apply service_name_no_line_feed || apply compose_port_no_line_feed).
  rewrite replace_toLowerCase.
  split; [done|]. split; [|split; [|done]].
  - induction basename as [|c s IH]; [done|]. simpl. by rewrite IH.
  - induction basename as [|c s IH]; intros i x; [by destruct i|].
    destruct i as [|i]; simpl; [by intros [= ->]|apply IH].
Qed.

(** ** Directories without a manifest *)

Lemma existsb_py (d : directory) :
  existsb (λ file, endsWith file ".py") (listing d) = true ↔ has_python_entry d.
Proof.
  unfold has_python_entry. rewrite existsb_exists. split.
  - intros (file & Hin%list_elem_of_In & (before & ->)%endsWith_spec). eauto.
  - intros (file & before & Hin%list_elem_of_In & ->).
    exists (before +:+ ".py"). split; [done|]. apply endsWith_spec. eauto.
Qed.

(** With a signal of python the type is python. *)
Lemma python_signal (d : directory) :
  package_json d = None →
  has_python_entry d ∨ has_requirements d = true →
  detectAppType d = Ok {| type := python; packageJson := undefined |}.
Proof.
  intros Hd Hsig. rewrite (detectAppType_no_manifest d Hd).
  assert (existsb (λ file, endsWith file ".py") (listing d) || has_requirements d = true)
    as ->; [|done].
  apply orb_true_iff. destruct Hsig as [Hpy%existsb_py|Hreq]; [by left|by right].
Qed.

(** Without any signal the type is generic. *)
Lemma no_signal (d : directory) :
  package_json d = None → ¬ has_python_entry d → has_requirements d = false →
  detectAppType d = Ok {| type := generic; packageJson := undefined |}.
Proof.
  intros Hd Hpy Hreq. rewrite (detectAppType_no_manifest d Hd), Hreq.
  destruct (existsb _ _) eqn:Hex; [|done].
  by apply existsb_py in Hex.
Qed.

(** C6.  A directory without package.json that has an entry ending in .py
    or a requirements.txt is classified python; the script then renders a
    build file that exposes the port 8000 and an ignore file with the
    virtual-environment pattern venv/.  A directory with none of the three
    is classified generic. *)
Theorem classification_without_manifest (d : directory) (basename : string) :
  package_json d = None →
  (has_python_entry d ∨ has_requirements d = true →
   detectAppType d = Ok {| type := python; packageJson := undefined |}
   ∧ ∃ docs, main d basename = Ok docs
             ∧ detected docs = python
             ∧ exposed (dockerfileContent docs) = ["8000"]
             ∧ "venv/" ∈ lines_of (dockerignoreContent docs))
  ∧ (¬ has_python_entry d → has_requirements d = false →
     detectAppType d = Ok {| type := generic; packageJson := undefined |}).
Proof.
  intros Hd. split; [|by apply no_signal].
  intros Hdet%python_signal; [|done].
  split; [done|]. unfold main. rewrite Hdet.
  eexists. split; [done|]. split; [done|].
  split; [by vm_compute|]. apply (bool_decide_unpack _). by vm_compute.
Qed.

(** The end-to-end example of the specification: only requirements.txt. *)
Lemma requirements_only_is_python :
  ∃ docs,
    main {| package_json := None; listing := ["requirements.txt"];
            has_requirements := true |} "app" = Ok docs
    ∧ detected docs = python
    ∧ exposed (dockerfileContent docs) = ["8000"]
    ∧ "venv/" ∈ lines_of (dockerignoreContent docs).
Proof.
  apply (classification_without_manifest
           {| package_json := None; listing := ["requirements.txt"];
              has_requirements := true |} "app" eq_refl).
  right. reflexivity.
Defined.

(** ** Determinism *)

(** The script reads the listing only to know whether an entry ends in
    .py. *)
Lemma main_listing (d1 d2 : directory) (basename : string) :
  package_json d1 = package_json d2 →
  has_requirements d1 = has_requirements d2 →
  (has_python_entry d1 ↔ has_python_entry d2) →
  main d1 basename = main d2 basename.
Proof.
  intros Hp Hr Hpy. unfold main.
  assert (detectAppType d1 = detectAppType d2) as ->; [|done].
  unfold detectAppType. rewrite Hp, Hr.
  destruct (package_json d2); [done|].
  assert (existsb (λ file, endsWith file ".py") (listing d1)
          = existsb (λ file, endsWith file ".py") (listing d2)) as ->; [|done].
  apply eq_true_iff_eq. by rewrite !existsb_py.
Qed.

Lemma generated_files_not_python (file before : string) :
  file ∈ generated_files → file ≠ before +:+ ".py".
Proof.
  intros Hin Heq.
  assert (endsWith file ".py" = true) as Hends by (apply endsWith_spec; eauto).
  unfold generated_files in Hin.
  rewrite !elem_of_cons, elem_of_nil in Hin.
  by destruct Hin as [->|[->|[->|[]]]].
Qed.

(** C9.  Two runs of the script on the same inputs (package.json, listing,
    requirements.txt, directory name) end alike: the same three documents,
    byte for byte, or the same exception.  The same holds when the second
    run finds in the listing the files the first one wrote. *)
Theorem main_deterministic (d1 d2 : directory) (name1 name2 : string) :
  name1 = name2 →
  package_json d1 = package_json d2 →
  has_requirements d1 = has_requirements d2 →
  listing d1 = listing d2
  ∨ (∀ file, file ∈ listing d2 ↔ file ∈ listing d1 ∨ file ∈ generated_files) →
  main d1 name1 = main d2 name2.
Proof.
  intros -> Hp Hr Hl. apply main_listing; [done..|].
  unfold has_python_entry. destruct Hl as [->|Hl]; [done|].
  split; intros (file & before & Hin & ->).
  - exists (before +:+ ".py"), before. split; [|done]. apply Hl. by left.
  - exists (before +:+ ".py"), before. split; [|done].
    apply Hl in Hin as [Hin|Hin]; [done|].
    by destruct (generated_files_not_python _ before Hin).
Qed.

(** A second run in the directory of the example above, now with the three
    generated files in its listing. *)
Lemma main_deterministic_second_run :
  main {| package_json := None; listing := ["requirements.txt"];
          has_requirements := true |} "app"
  = main {| package_json := None;
            listing := [".dockerignore"; "Dockerfile"; "docker-compose.yml";
                        "requirements.txt"];
            has_requirements := true |} "app".
Proof.
  apply main_deterministic; [reflexivity..|].
  right. simpl. unfold generated_files. intros file.
  rewrite !elem_of_cons, !elem_of_nil. tauto.
Defined.

(** ** The generic type *)

(** C10.  For a directory classified generic (no package.json, no entry
    ending in .py, no requirements.txt) the compose file has the live port
    line that maps 3000 to 3000, while the build file has three live lines
    only (FROM, WORKDIR, COPY): it exposes no port and launches nothing, and
    its install, EXPOSE and CMD lines are comments. *)
Theorem generic_compose_port_is_live (d : directory) (basename : string) :
  package_json d = None → ¬ has_python_entry d → has_requirements d = false →
  ∃ docs,
    main d basename = Ok docs
    ∧ detected docs = generic
    ∧ port_line "3000" ∈ lines_of (dockerComposeContent docs)
    ∧ is_comment (port_line "3000") = false
    ∧ live_lines (dockerfileContent docs)
      = ["FROM ubuntu:20.04"; "WORKDIR /app"; "COPY . ."]
    ∧ exposed (dockerfileContent docs) = []
    ∧ commands (dockerfileContent docs) = []
    ∧ ["# RUN apt-get update && apt-get install -y some-package";
       "# EXPOSE 8080";
       "# CMD [" +:+ dq +:+ "./start.sh" +:+ dq +:+ "]"]
      ⊆ lines_of (dockerfileContent docs).
Proof.
  intros Hd Hpy Hreq. unfold main. rewrite (no_signal d Hd Hpy Hreq).
  eexists. split; [done|]. split; [done|]. simpl.
  split.
  { rewrite lines_of_generateDockerCompose, lines_of_compose_template
      by (apply service_name_no_line_feed || done).
    simpl. set_solver. }
  split; [done|]. split; [by vm_compute|]. split; [by vm_compute|].
  split; [by vm_compute|].
  apply (bool_decide_unpack _). by vm_compute.
Qed.

(** An empty directory. *)
Lemma generic_compose_port_is_live_empty :
  ∃ docs,
    main {| package_json := None; listing := []; has_requirements := false |} "app"
    = Ok docs
    ∧ detected docs = generic
    ∧ port_line "3000" ∈ lines_of (dockerComposeContent docs)
    ∧ is_comment (port_line "3000") = false
    ∧ live_lines (dockerfileContent docs)
      = ["FROM ubuntu:20.04"; "WORKDIR /app"; "COPY . ."]
    ∧ exposed (dockerfileContent docs) = []
    ∧ commands (dockerfileContent docs) = []
    ∧ ["# RUN apt-get update && apt-get install -y some-package";
       "# EXPOSE 8080";
       "# CMD [" +:+ dq +:+ "./start.sh" +:+ dq +:+ "]"]
      ⊆ lines_of (dockerfileContent docs).
Proof.
  apply (generic_compose_port_is_live
           {| package_json := None; listing := []; has_requirements := false |}
           "app" eq_refl).
  - intros (file & before & Hin & _). simpl in Hin. by apply elem_of_nil in Hin.
  - reflexivity.
Defined.

(** * Further properties of the script *)

(** ** What [detectAppType] returns *)

(** X1.  On a manifest that parses to a value other than [null] the result
    carries that manifest, and its type is react exactly when the value of
    react is truthy, the value in devDependencies hiding the one in
    dependencies; it is node in every other case.  No other key of the
    manifest is looked at. *)
Theorem classification_of_manifest (d : directory) (m : json) :
  package_json d = Some (Parses m) → m ≠ JNull →
  ∃ a, detectAppType d = Ok a
       ∧ packageJson a = Some m
       ∧ (type a = react ↔ truthy (merged_dependency m "react") = true)
       ∧ (type a = node ↔ truthy (merged_dependency m "react") = false).
Proof.
  intros Hd Hm. rewrite (detectAppType_parsed d m Hd Hm).
  eexists. split; [done|]. split; [done|]. simpl.
  by destruct (truthy (merged_dependency m "react")).
Qed.

(** A truthy version in devDependencies hides a falsy one in
    dependencies. *)
Lemma classification_of_manifest_dev_hides :
  ∃ a,
    detectAppType
      (with_manifest (JObj [("dependencies", JObj [("react", JBool false)]);
                            ("devDependencies", JObj [("react", JStr "^18.2.0")])]))
    = Ok a
    ∧ type a = react.
Proof.
  destruct (classification_of_manifest
              (with_manifest (JObj [("dependencies", JObj [("react", JBool false)]);
                                    ("devDependencies", JObj [("react", JStr "^18.2.0")])]))
              _ eq_refl) as (a & Ha & _ & Hreact & _).
  - discriminate.
  - exists a. split; [exact Ha|]. apply Hreact. reflexivity.
Defined.

(** X2.  A package.json wins over every other signal, and the result says
    which case it was: with a package.json the type is react or node, never
    python or generic, and the result carries the parsed manifest, which is
    not [null]; without one the type is python or generic and the result
    carries no manifest. *)
Theorem detectAppType_result (d : directory) (a : appType) :
  detectAppType d = Ok a →
  match package_json d with
  | Some content =>
      (type a = react ∨ type a = node)
      ∧ ∃ m, content = Parses m ∧ m ≠ JNull ∧ packageJson a = Some m
  | None =>
      (type a = python ∨ type a = generic) ∧ packageJson a = undefined
  end.
Proof.
  destruct (package_json d) as [[|m]|] eqn:Hd.
  - by rewrite (detectAppType_malformed d Hd).
  - destruct m as [|b|z t|s|elems|fields];
      [by rewrite (detectAppType_null d Hd)
      |rewrite (detectAppType_parsed d _ Hd) by done..];
      intros [= <-]; simpl;
      (split; [try case_match; auto | by eexists]).
  - rewrite (detectAppType_no_manifest d Hd). intros [= <-]. simpl.
    split; [try case_match; auto | done].
Qed.

(** A package.json beside requirements.txt and a .py file: the type is
    node. *)
Lemma detectAppType_result_manifest_wins :
  (type {| type := node; packageJson := Some (JObj []) |} = react
   ∨ type {| type := node; packageJson := Some (JObj []) |} = node)
  ∧ ∃ m, Parses (JObj []) = Parses m ∧ m ≠ JNull
         ∧ packageJson {| type := node; packageJson := Some (JObj []) |} = Some m.
Proof.
  apply (detectAppType_result
           {| package_json := Some (Parses (JObj []));
              listing := ["app.py"; "package.json"; "requirements.txt"];
              has_requirements := true |}).
  reflexivity.
Defined.

(** ** The react build file *)

Lemma split_append_sep (sep : ascii) (a b : string) :
  split sep (a +:+ String sep b) = split sep a ++ split sep b.
Proof.
  induction a as [|x a IH]; [simpl; by rewrite bool_decide_true|].
  rewrite append_String. simpl. rewrite IH.
  case_bool_decide; [done|].
  destruct (split sep a) as [|w ws] eqn:Hsp; [|done].
  by destruct (split_nonempty sep a).
Qed.

Lemma before_space_no_space (s : string) : occurs " " (before_space s) = false.
Proof. apply before_space_spec. Qed.

Lemma build_word_no_space (build : jsval) : occurs " " (build_word build) = false.
Proof.
  destruct build as [[| | |s| |]|]; try done. simpl.
  case_bool_decide; [done|]. apply before_space_no_space.
Qed.

(** The lines of a text that holds no space are no EXPOSE instructions,
    and neither is the first one with a prefix that is none put before
    it. *)
Lemma exposed_after_prefix (prefix w : string) :
  occurs "010" prefix = false →
  (∀ rest, strip_prefix "EXPOSE " (prefix +:+ rest) = None) →
  occurs " " w = false →
  omap (strip_prefix "EXPOSE ") (split "010" (prefix +:+ w)) = [].
Proof.
  intros Hprefix Hno Hw. rewrite split_append_l by done.
  destruct (split "010" w) as [|w0 ws] eqn:Hsp.
  - by destruct (split_nonempty "010" w).
  - cbn [omap list_omap]. rewrite Hno. apply omap_None. intros l Hl.
    apply strip_prefix_EXPOSE_no_space, (occurs_split "010" " " w l Hw).
    rewrite Hsp. by right.
Qed.

(** The react build file exposes the port 80 and no other, whatever the
    build word. *)
Lemma exposed_react_template (buildWord : string) :
  occurs " " buildWord = false →
  exposed (react_template buildWord) = ["80"].
Proof.
  intros Hword. unfold exposed, react_template.
  match goal with
  | |- context [text (?l1 :: ?l2 :: ?l3 :: ?l4 :: ?l5 :: ?l6 :: ?l7 :: ?l8 :: ?l9
                       :: ?l10 :: ?l11 :: ?l12 :: ?l13 :: ?l14 :: ?l15 :: ?l16
                       :: ?rest)] =>
      change (text (l1 :: l2 :: l3 :: l4 :: l5 :: l6 :: l7 :: l8 :: l9
                      :: l10 :: l11 :: l12 :: l13 :: l14 :: l15 :: l16 :: rest))
        with (text ([l1; l2; l3; l4; l5; l6; l7; l8; l9; l10; l11; l12; l13;
                     l14; l15; l16] ++ rest))
  end.
  rewrite lines_of_text_app
    by (repeat first [apply Forall_nil | apply Forall_cons_2]; reflexivity).
  rewrite omap_app. unfold lines_of. rewrite text_cons, split_append_sep, omap_app.
  rewrite exposed_after_prefix by done.
  reflexivity.
Qed.

(** The calls of [generateReactDockerfile] on a result whose manifest has
    the value [scripts] for its scripts, and these the value [build] for
    the build script. *)
Section react_calls.
Context (a : appType) (scripts build : jsval).
Hypothesis Hscripts : get (packageJson a) "scripts" = Ok scripts.
Hypothesis Hbuild : get_opt scripts "build" = Ok build.

(** [generateReactDockerfile] up to its only call that can still throw,
    the split of the build script; the start script it reads first is not
    used. *)
Lemma generateReactDockerfile_unfold :
  generateReactDockerfile a =
    (buildWords ← call_split (or_else build (Some (JStr "react-scripts build"))) " ";
     Ok (react_template (item0 buildWords))).
Proof using Hscripts Hbuild.
  unfold generateReactDockerfile, script_of.
  rewrite Hscripts. cbn [mbind result_bind].
  destruct (get_opt_returns scripts "start") as [start ->].
  cbn [mbind result_bind]. by rewrite Hbuild.
Qed.

Lemma generateReactDockerfile_splittable :
  splittable build →
  generateReactDockerfile a = Ok (react_template (build_word build)).
Proof using Hscripts Hbuild.
  intros Hsp. rewrite generateReactDockerfile_unfold. unfold or_else, build_word.
  destruct Hsp as [Hf|[s ->]].
  - rewrite Hf. by destruct build as [[| | |s| |]|]; try done; simpl in *;
      case_bool_decide.
  - simpl. case_bool_decide; simpl; [done|]. by rewrite item0_split_space.
Qed.

Lemma generateReactDockerfile_not_splittable :
  ¬ splittable build → generateReactDockerfile a = Throw TypeError.
Proof using Hscripts Hbuild.
  intros Hsp. rewrite generateReactDockerfile_unfold. unfold or_else.
  destruct (truthy build) eqn:Ht; [|by destruct Hsp; left].
  destruct build as [[| | |s| |]|]; try done.
  destruct Hsp. right. by exists s.
Qed.

End react_calls.

(** X3.  The react build file is rendered exactly when the build script is
    falsy or a string; it then builds with npm run and the build word (the
    text of the script before its first space, react-scripts by default)
    and exposes the port 80 and no other.  A build script that is truthy
    and no string (a number, an array, an object) makes the call throw a
    TypeError. *)
Theorem react_build_file_rendering (a : appType) (build : jsval) :
  script_of a "build" = Ok build →
  (splittable build →
   generateReactDockerfile a = Ok (react_template (build_word build))
   ∧ exposed (react_template (build_word build)) = ["80"])
  ∧ (¬ splittable build → generateReactDockerfile a = Throw TypeError).
Proof.
  unfold script_of. intros (scripts & Hs & Hbuild)%bind_Ok. split.
  - intros Hsp. split.
    + by apply (generateReactDockerfile_splittable a scripts build).
    + apply exposed_react_template, build_word_no_space.
  - by apply (generateReactDockerfile_not_splittable a scripts build).
Qed.

(** The build script vite build. *)
Lemma react_build_file_vite :
  generateReactDockerfile
    {| type := react;
       packageJson := Some (JObj [("scripts", JObj [("build", JStr "vite build")])]) |}
  = Ok (react_template "vite")
  ∧ exposed (react_template "vite") = ["80"].
Proof.
  apply (react_build_file_rendering
           {| type := react;
              packageJson := Some (JObj [("scripts", JObj [("build", JStr "vite build")])]) |}
           (Some (JStr "vite build")) eq_refl).
  right. by eexists.
Defined.

(** X4.  The react build file depends on the manifest through the build
    script alone: the start script the function reads, and every other
    field, change nothing. *)
Theorem react_build_file_depends_on_build (a a' : appType) :
  script_of a "build" = script_of a' "build" →
  generateReactDockerfile a = generateReactDockerfile a'.
Proof.
  unfold script_of. intros Heq.
  destruct (get (packageJson a) "scripts") as [scripts|e] eqn:Hs;
    destruct (get (packageJson a') "scripts") as [scripts'|e'] eqn:Hs'.
  - cbn [mbind result_bind] in Heq.
    destruct (get_opt_returns scripts "build") as [build Hb].
    rewrite Hb in Heq. symmetry in Heq.
    by rewrite (generateReactDockerfile_unfold a scripts build Hs Hb),
      (generateReactDockerfile_unfold a' scripts' build Hs' Heq).
  - cbn [mbind result_bind] in Heq.
    destruct (get_opt_returns scripts "build") as [build Hb].
    rewrite Hb in Heq. discriminate Heq.
  - cbn [mbind result_bind] in Heq.
    destruct (get_opt_returns scripts' "build") as [build Hb].
    rewrite Hb in Heq. discriminate Heq.
  - unfold generateReactDockerfile, script_of. rewrite Hs, Hs'.
    cbn [mbind result_bind] in *. congruence.
Qed.

(** Two manifests with the same build script and different start scripts,
    names and ports. *)
Lemma react_build_file_ignores_start :
  generateReactDockerfile
    {| type := react;
       packageJson :=
         Some (JObj [("name", JStr "a");
                     ("scripts", JObj [("start", JStr "PORT=4000 serve");
                                       ("build", JStr "vite build")])]) |}
  = generateReactDockerfile
      {| type := react;
         packageJson := Some (JObj [("scripts", JObj [("build", JStr "vite build")])]) |}.
Proof. apply react_build_file_depends_on_build. reflexivity. Defined.

(** ** More on the node build file *)

Lemma item0_split_no_space (s : string) : occurs " " (item0 (split " " s)) = false.
Proof. rewrite item0_split_space. apply before_space_no_space. Qed.

Lemma splittable_dec (v : jsval) : splittable v ∨ ¬ splittable v.
Proof.
  unfold splittable. destruct (truthy v) eqn:Ht; [|by left; left].
  destruct v as [[| | |s| |]|]; try done;
    try (right; intros [?|[? [=]]]; done).
  left. right. by exists s.
Qed.

Lemma printable_scripts_dec (scripts : jsval) :
  printable_scripts scripts ∨ ¬ printable_scripts scripts.
Proof.
  unfold printable_scripts. destruct (truthy scripts); [|by left].
  destruct (forallb printable (values_of scripts)); [by left|right].
  by intros H; specialize (H eq_refl).
Qed.

Lemma generateNodeDockerfile_splittable
    (a : appType) (scripts start : jsval) (port : string) :
  get (packageJson a) "scripts" = Ok scripts →
  get_opt scripts "start" = Ok start →
  splittable start →
  scanned_port scripts = Ok port →
  generateNodeDockerfile a = Ok (node_template port (start_word start)).
Proof.
  intros Hs Hstart Hsp Hport.
  rewrite (generateNodeDockerfile_unfold a scripts start Hs Hstart), Hport.
  cbn [mbind result_bind].
  unfold or_else, start_word. destruct Hsp as [Hf|[s ->]].
  - rewrite Hf. by destruct start as [[| | |s| |]|]; try done; simpl in *;
      case_bool_decide.
  - simpl. case_bool_decide; simpl; [done|]. by rewrite item0_split_space.
Qed.

Lemma generateNodeDockerfile_not_splittable (a : appType) (scripts start : jsval) :
  get (packageJson a) "scripts" = Ok scripts →
  get_opt scripts "start" = Ok start →
  ¬ splittable start →
  generateNodeDockerfile a = Throw TypeError.
Proof.
  intros Hs Hstart Hsp.
  apply (generateNodeDockerfile_throws a scripts start Hs Hstart).
  - destruct (truthy start) eqn:Ht; [done|]. destruct Hsp. by left.
  - intros s ->. destruct Hsp. right. by exists s.
Qed.

Lemma generateNodeDockerfile_unprintable (a : appType) (scripts start : jsval) :
  get (packageJson a) "scripts" = Ok scripts →
  get_opt scripts "start" = Ok start →
  ¬ printable_scripts scripts →
  generateNodeDockerfile a = Throw TypeError.
Proof.
  intros Hs Hstart Hpr.
  rewrite (generateNodeDockerfile_unfold a scripts start Hs Hstart).
  by rewrite (proj2 (scanned_port_printable scripts) Hpr).
Qed.

(** X5.  The node build file is rendered exactly when the start script is
    falsy or a string and the join of the script values does not throw,
    that is, when no value of a truthy scripts is an object with an own
    property toString or an array that holds one.  It then launches npm
    run with the start word and exposes one port and no other, a run of
    digits that is not empty: the scanned port or 3000 (no range is
    checked).  In every other case the call throws a TypeError. *)
Theorem node_build_file_rendering (a : appType) (scripts start : jsval) :
  get (packageJson a) "scripts" = Ok scripts →
  get_opt scripts "start" = Ok start →
  (splittable start ∧ printable_scripts scripts →
   ∃ port,
     generateNodeDockerfile a = Ok (node_template port (start_word start))
     ∧ exposed (node_template port (start_word start)) = [port]
     ∧ port ≠ "" ∧ all_digits port = true)
  ∧ (¬ (splittable start ∧ printable_scripts scripts) →
     generateNodeDockerfile a = Throw TypeError).
Proof.
  intros Hs Hstart. split.
  - intros [Hsp [port Hport]%scanned_port_printable]. exists port. split; [|split].
    + by apply (generateNodeDockerfile_splittable a scripts start).
    + apply exposed_node_template;
        [by apply (scanned_port_no_line_feed scripts) | apply start_word_no_space].
    + by apply (scanned_port_all_digits scripts).
  - intros Hno. destruct (printable_scripts_dec scripts) as [Hpr|Hpr].
    + apply (generateNodeDockerfile_not_splittable a scripts start Hs Hstart).
      intros Hsp. by apply Hno.
    + by apply (generateNodeDockerfile_unprintable a scripts start).
Qed.

(** A start script that is the number 0 is replaced by the default. *)
Lemma node_build_file_falsy_start :
  ∃ port,
    generateNodeDockerfile
      {| type := node;
         packageJson :=
           Some (JObj [("scripts", JObj [("start", JNum false "0");
                                         ("dev", JStr "PORT=99999 node x.js")])]) |}
    = Ok (node_template port "node")
    ∧ exposed (node_template port "node") = [port]
    ∧ port ≠ "" ∧ all_digits port = true.
Proof.
  apply (node_build_file_rendering
           {| type := node;
              packageJson :=
                Some (JObj [("scripts", JObj [("start", JNum false "0");
                                              ("dev", JStr "PORT=99999 node x.js")])]) |}
           (Some (JObj [("start", JNum false "0"); ("dev", JStr "PORT=99999 node x.js")]))
           (Some (JNum false "0")) eq_refl eq_refl).
  split; [left; reflexivity | intros _; reflexivity].
Defined.

(** The port of that manifest: beyond 65535, and exposed as it is. *)
Example node_build_file_port_unchecked :
  generateNodeDockerfile
    {| type := node;
       packageJson :=
         Some (JObj [("scripts", JObj [("start", JNum false "0");
                                       ("dev", JStr "PORT=99999 node x.js")])]) |}
  = Ok (node_template "99999" "node").
Proof. reflexivity. Qed.

(** A script value with an own property toString: the join throws, though
    the start script is a string. *)
Example node_build_file_unprintable :
  let scripts := JObj [("start", JStr "node x.js");
                       ("meta", JObj [("toString", JStr "x")])] in
  splittable (Some (JStr "node x.js"))
  ∧ ¬ printable_scripts (Some scripts)
  ∧ generateNodeDockerfile
      {| type := node; packageJson := Some (JObj [("scripts", scripts)]) |}
    = Throw TypeError.
Proof.
  split; [right; by eexists|]. split; [|reflexivity].
  intros H. specialize (H eq_refl). discriminate H.
Qed.

(** X6.  The node build file depends on the manifest through the value of
    its scripts alone: the main file the function reads, and every other
    field, change nothing. *)
Theorem node_build_file_depends_on_scripts (a a' : appType) :
  get (packageJson a) "scripts" = get (packageJson a') "scripts" →
  generateNodeDockerfile a = generateNodeDockerfile a'.
Proof.
  intros Heq.
  destruct (get (packageJson a) "scripts") as [scripts|e] eqn:Hs.
  - symmetry in Heq. destruct (get_opt_returns scripts "start") as [start Hstart].
    by rewrite (generateNodeDockerfile_unfold a scripts start Hs Hstart),
      (generateNodeDockerfile_unfold a' scripts start Heq Hstart).
  - symmetry in Heq. unfold generateNodeDockerfile, script_of. by rewrite Hs, Heq.
Qed.

(** The same scripts with and without a main file and a name. *)
Lemma node_build_file_ignores_main :
  generateNodeDockerfile
    {| type := node;
       packageJson :=
         Some (JObj [("name", JStr "api"); ("main", JStr "src/server.js");
                     ("scripts", JObj [("start", JStr "node src/server.js")])]) |}
  = generateNodeDockerfile
      {| type := react;
         packageJson := Some (JObj [("scripts", JObj [("start", JStr "node src/server.js")])]) |}.
Proof. apply node_build_file_depends_on_scripts. reflexivity. Defined.

(** ** The scan, command by command *)

Lemma strip_prefix_append_char (p a b : string) (c : ascii) :
  occurs c p = false →
  strip_prefix p (a +:+ String c b) = (λ r, r +:+ String c b) <$> strip_prefix p a.
Proof.
  revert a. induction p as [|x p IH]; intros a Hp.
  - by destruct a.
  - simpl in Hp. apply orb_false_iff in Hp as [Hx Hp].
    destruct a as [|y a].
    + simpl. by rewrite Hx.
    + rewrite append_String. simpl.
      destruct (bool_decide (x = y)); [by apply IH|done].
Qed.

Lemma digits_append_nondigit (r b : string) (c : ascii) :
  is_digit c = false → digits (r +:+ String c b) = digits r.
Proof.
  intros Hc. induction r as [|x r IH]; [simpl; by rewrite Hc|].
  rewrite append_String. simpl. by rewrite IH.
Qed.

(** A space ends every match: what follows it changes no match that
    starts before it. *)
Lemma match_here_append_space (a b : string) :
  match_here (a +:+ String " " b) = match_here a.
Proof.
  unfold match_here. rewrite strip_prefix_append_char by done.
  destruct (strip_prefix "PORT=" a) as [r|]; [|done]. simpl.
  by rewrite digits_append_nondigit.
Qed.

Lemma match_PORT_append_space (a b : string) :
  match_PORT (a +:+ String " " b) =
    match match_PORT a with
    | Some ds => Some ds
    | None => match_PORT b
    end.
Proof.
  induction a as [|x a IH].
  - rewrite append_nil_l. by rewrite (match_PORT_unfold (String " " b)).
  - rewrite match_PORT_unfold, match_here_append_space,
      (match_PORT_unfold (String x a)).
    destruct (match_here (String x a)); [done|].
    rewrite append_String. apply IH.
Qed.

(** The scan of the commands joined by spaces finds the match of the first
    command that has one. *)
Lemma match_PORT_join (cmds : list string) :
  match_PORT (join " " cmds) = head (omap match_PORT cmds).
Proof.
  induction cmds as [|x [|y cmds] IH]; [done| |].
  - simpl. by destruct (match_PORT x).
  - change (join " " (x :: y :: cmds)) with (x +:+ String " " (join " " (y :: cmds))).
    rewrite match_PORT_append_space, IH.
    cbn [omap list_omap]. by destruct (match_PORT x).
Qed.

(** X7.  The port of the node build file is decided command by command:
    it is the port of the first script command, in the order of the
    scripts, that holds PORT= followed by a digit, and 3000 when no command
    does; a match never runs from one command into the next. *)
Theorem port_of_first_matching_command (m : json) (cmds : list string) :
  script_commands m cmds →
  node_port {| type := node; packageJson := Some m |}
  = Ok (default "3000" (head (omap match_PORT cmds))).
Proof.
  intros (scripts & start & Hs & _ & _ & Hport)%script_commands_scripts.
  rewrite (node_port_scanned {| type := node; packageJson := Some m |} scripts Hs).
  by rewrite Hport, match_PORT_join.
Qed.

(** Three scripts, the second and the third with a port. *)
Lemma port_of_first_matching_command_dev :
  node_port
    {| type := node;
       packageJson :=
         Some (JObj [("scripts", JObj [("test", JStr "jest PORT=");
                                       ("dev", JStr "PORT=4000 node x.js");
                                       ("start", JStr "PORT=5000 node y.js")])]) |}
  = Ok "4000".
Proof.
  apply (port_of_first_matching_command
           (JObj [("scripts", JObj [("test", JStr "jest PORT=");
                                    ("dev", JStr "PORT=4000 node x.js");
                                    ("start", JStr "PORT=5000 node y.js")])])
           ["jest PORT="; "PORT=4000 node x.js"; "PORT=5000 node y.js"]).
  eapply scripts_object; reflexivity.
Defined.

(** ** The outcome of a run *)

Lemma get_not_null (m : json) (k : string) :
  m ≠ JNull → ∃ o, get (Some m) k = Ok o.
Proof. intros Hm. destruct m; try done; by eexists. Qed.

(** The two shapes of a result of [detectAppType]. *)
Lemma detectAppType_cases (d : directory) (a : appType) :
  detectAppType d = Ok a →
  (∃ m, package_json d = Some (Parses m) ∧ m ≠ JNull
        ∧ a = {| type := if truthy (merged_dependency m "react") then react else node;
                 packageJson := Some m |})
  ∨ (package_json d = None
     ∧ a = {| type := if existsb (λ file, endsWith file ".py") (listing d)
                         || has_requirements d
                      then python else generic;
              packageJson := undefined |}).
Proof.
  destruct (package_json d) as [[|m]|] eqn:Hd.
  - by rewrite (detectAppType_malformed d Hd).
  - destruct m as [|b|z t|s|elems|fields];
      [by rewrite (detectAppType_null d Hd)
      |rewrite (detectAppType_parsed d _ Hd) by done..];
      intros [= <-]; left; by eexists.
  - rewrite (detectAppType_no_manifest d Hd). intros [= <-]. by right.
Qed.

Lemma renderable_dec (m : json) : renderable m ∨ ¬ renderable m.
Proof.
  unfold renderable.
  destruct (splittable_dec (deciding_script m)) as [Hsp|Hsp]; [|right; by intros [? _]].
  destruct (truthy (merged_dependency m "react")); [by left|].
  destruct (printable_scripts_dec (scripts_of m)) as [Hpr|Hpr]; [by left|].
  right. intros [_ H]. by apply Hpr, H.
Qed.

(** The build file of the result detected on a manifest other than
    [null]: rendered when the manifest is renderable, a TypeError
    otherwise. *)
Lemma generateDockerfile_parsed (m : json) :
  m ≠ JNull →
  let a := {| type := if truthy (merged_dependency m "react") then react else node;
              packageJson := Some m |} in
  (renderable m → returns (generateDockerfile a))
  ∧ (¬ renderable m → generateDockerfile a = Throw TypeError).
Proof.
  intros Hm a. destruct (get_not_null m "scripts" Hm) as [scripts Hs].
  unfold renderable, deciding_script, scripts_of. rewrite Hs.
  unfold generateDockerfile. subst a.
  destruct (truthy (merged_dependency m "react")); simpl type.
  - destruct (get_opt_returns scripts "build") as [build Hb]. rewrite Hb. split.
    + intros [Hsp _]. eexists.
      by apply (generateReactDockerfile_splittable _ scripts build).
    + intros Hno.
      apply (generateReactDockerfile_not_splittable _ scripts build); [done..|].
      intros Hsp. by apply Hno.
  - destruct (get_opt_returns scripts "start") as [start Hst]. rewrite Hst. split.
    + intros [Hsp Hpr]. specialize (Hpr eq_refl).
      apply scanned_port_printable in Hpr as [port Hport]. eexists.
      by apply (generateNodeDockerfile_splittable _ scripts start port).
    + intros Hno. destruct (printable_scripts_dec scripts) as [Hpr|Hpr].
      * apply (generateNodeDockerfile_not_splittable _ scripts start); [done..|].
        intros Hsp. by apply Hno.
      * by apply (generateNodeDockerfile_unprintable _ scripts start).
Qed.

(** X8.  Every way detection and generation end, once the reads of the
    file system have returned (the content of package.json, or without one
    the listing; a read that fails is a matter of [script]).  The run
    throws the parser's SyntaxError exactly on a malformed package.json.
    It throws a TypeError exactly when the manifest is [null], or the
    script that decides the build file (build for a react manifest, start
    for any other) is truthy and no string, or the manifest is not react
    and a value of its truthy scripts is an object with an own property
    toString or an array that holds one.  It returns the three documents
    in every other case. *)
Theorem main_outcome (d : directory) (basename : string) :
  (main d basename = Throw SyntaxError ↔ package_json d = Some Malformed)
  ∧ (main d basename = Throw TypeError ↔
       ∃ m, package_json d = Some (Parses m)
            ∧ (m = JNull
               ∨ ¬ splittable (deciding_script m)
               ∨ (truthy (merged_dependency m "react") = false
                  ∧ ¬ printable_scripts (scripts_of m))))
  ∧ (returns (main d basename) ↔
       package_json d = None
       ∨ ∃ m, package_json d = Some (Parses m) ∧ m ≠ JNull
              ∧ splittable (deciding_script m)
              ∧ (truthy (merged_dependency m "react") = false
                 → printable_scripts (scripts_of m))).
Proof.
  assert (∀ m, ¬ renderable m ↔
               ¬ splittable (deciding_script m)
               ∨ (truthy (merged_dependency m "react") = false
                  ∧ ¬ printable_scripts (scripts_of m))) as Hnot.
  { intros m. unfold renderable. split.
    - intros Hno. destruct (splittable_dec (deciding_script m)) as [Hsp|Hsp]; [|by left].
      right. destruct (truthy (merged_dependency m "react")); [by destruct Hno|].
      split; [done|]. intros Hpr. by apply Hno.
    - intros [Hsp|[Hr Hpr]] [Hsp' Hpr']; [done|]. by apply Hpr, Hpr'. }
  unfold returns, main.
  destruct (package_json d) as [[|m]|] eqn:Hd.
  - rewrite (detectAppType_malformed d Hd). cbn [mbind result_bind].
    split; [done|]. split; split; try done.
    + by intros (m & [=] & _).
    + by intros [a Ha].
    + by intros [[=]|(m & [=] & _)].
  - destruct m as [|b|z t|s|elems|fields].
    { rewrite (detectAppType_null d Hd). cbn [mbind result_bind].
      split; [done|]. split; split; try done.
      - intros _. exists JNull. split; [done|by left].
      - by intros [a Ha].
      - by intros [[=]|(m & [= <-] & Hm & _)]. }
    all: rewrite (detectAppType_parsed d _ Hd) by done; cbn [mbind result_bind].
    all: match goal with
         | |- context [generateDockerfile {| type := _; packageJson := Some ?m |}] =>
             destruct (generateDockerfile_parsed m ltac:(done)) as [Hyes Hno];
             pose proof (Hnot m) as Hnot';
             destruct (renderable_dec m) as [Hr|Hr];
             [destruct (Hyes Hr) as [doc ->] | rewrite (Hno Hr)]
         end; cbn [mbind result_bind].
    all: split; [done|]; split; split; try done.
    all: try (by intros (m' & [= <-] & [?|?%Hnot'])).
    all: try (by intros [a Ha]).
    all: try (intros [[=]|(m' & [= <-] & _ & ? & ?)]; destruct Hr; by split).
    all: try (intros _; eexists; split; [done|right; by apply Hnot']).
    all: try (intros _; by eexists).
    all: try (intros _; right; eexists; split; [done|split; [done|apply Hr]]).
  - rewrite (detectAppType_no_manifest d Hd). cbn [mbind result_bind].
    assert (∀ a, type a = python ∨ type a = generic →
                 ∃ doc, generateDockerfile a = Ok doc) as Hdoc.
    { intros a [Ht|Ht]; unfold generateDockerfile; rewrite Ht; by eexists. }
    match goal with
    | |- context [generateDockerfile ?a] =>
        destruct (Hdoc a) as [doc ->]; [simpl; case_match; auto|]
    end.
    cbn [mbind result_bind]. split; [done|]. split; split; try done.
    all: try (by intros (m & [=] & _)).
    all: try (intros _; by eexists).
    all: try (intros _; by left).
Qed.

(** A manifest without react whose scripts have no start and hold, in an
    array in an array, an object with an own property toString: the run
    throws a TypeError in the join. *)
Example main_throws_in_join :
  let m := JObj [("scripts",
                  JObj [("a", JArr [JArr [JStr "PORT=9"; JObj [("toString", JNull)]]])])] in
  splittable (deciding_script m)
  ∧ ¬ printable_scripts (scripts_of m)
  ∧ main (with_manifest m) "app" = Throw TypeError.
Proof.
  split; [by left|]. split; [|reflexivity].
  intros H. specialize (H eq_refl). discriminate H.
Qed.

(** ** The ports of a run *)

(** A rendered react build file is the template on a word without a
    space. *)
Lemma generateReactDockerfile_shape (a : appType) (doc : string) :
  generateReactDockerfile a = Ok doc →
  ∃ word, doc = react_template word ∧ occurs " " word = false.
Proof.
  intros Hdoc.
  destruct (get (packageJson a) "scripts") as [scripts|e] eqn:Hs.
  - destruct (get_opt_returns scripts "build") as [build Hb].
    rewrite (generateReactDockerfile_unfold a scripts build Hs Hb) in Hdoc.
    destruct (or_else build _) as [[| | |s| |]|]; try done.
    injection Hdoc as <-. eexists. split; [done|]. apply item0_split_no_space.
  - unfold generateReactDockerfile, script_of in Hdoc. by rewrite Hs in Hdoc.
Qed.

(** A rendered node build file is the template on a port of digits and a
    word without a space. *)
Lemma generateNodeDockerfile_shape (a : appType) (doc : string) :
  generateNodeDockerfile a = Ok doc →
  ∃ port word,
    doc = node_template port word
    ∧ occurs "010" port = false ∧ port ≠ "" ∧ all_digits port = true
    ∧ occurs " " word = false.
Proof.
  intros Hdoc.
  destruct (get (packageJson a) "scripts") as [scripts|e] eqn:Hs.
  - destruct (get_opt_returns scripts "start") as [start Hst].
    rewrite (generateNodeDockerfile_unfold a scripts start Hs Hst) in Hdoc.
    apply bind_Ok in Hdoc as (port & Hport & Hdoc).
    destruct (or_else start _) as [[| | |s| |]|]; try done.
    injection Hdoc as <-. eexists _, _. split; [done|].
    split; [by apply (scanned_port_no_line_feed scripts)|].
    split; [by apply (scanned_port_all_digits scripts)|].
    split; [by apply (scanned_port_all_digits scripts)|apply item0_split_no_space].
  - unfold generateNodeDockerfile, script_of in Hdoc. by rewrite Hs in Hdoc.
Qed.

Lemma port_line_in_compose (a : appType) (basename : string) :
  port_line (compose_port (type a)) ∈ lines_of (generateDockerCompose a basename).
Proof.
  rewrite lines_of_generateDockerCompose, lines_of_compose_template
    by (apply service_name_no_line_feed || apply compose_port_no_line_feed).
  set_solver.
Qed.

(** X9.  The ports of the two files of a run that returns.  The build file
    exposes one port for react (80), python (8000) and node (a run of
    digits), and none for generic.  The compose file maps the exposed port
    for react and python; for node it maps 3000 whatever the build file
    exposes, and for generic it maps 3000 although nothing is exposed. *)
Theorem ports_of_a_run (d : directory) (basename : string) (docs : documents) :
  main d basename = Ok docs →
  match detected docs with
  | react =>
      exposed (dockerfileContent docs) = ["80"]
      ∧ port_line "80" ∈ lines_of (dockerComposeContent docs)
  | python =>
      exposed (dockerfileContent docs) = ["8000"]
      ∧ port_line "8000" ∈ lines_of (dockerComposeContent docs)
  | node =>
      (∃ port, exposed (dockerfileContent docs) = [port]
               ∧ port ≠ "" ∧ all_digits port = true)
      ∧ port_line "3000" ∈ lines_of (dockerComposeContent docs)
  | generic =>
      exposed (dockerfileContent docs) = []
      ∧ port_line "3000" ∈ lines_of (dockerComposeContent docs)
  end.
Proof.
  unfold main. intros (a & Ha & (doc & Hdoc & [= <-])%bind_Ok)%bind_Ok. simpl.
  pose proof (port_line_in_compose a basename) as Hline.
  unfold generateDockerfile in Hdoc.
  destruct (type a) eqn:Ht; simpl in Hline; (split; [|done]).
  - apply generateReactDockerfile_shape in Hdoc as (word & -> & Hword).
    by apply exposed_react_template.
  - apply generateNodeDockerfile_shape in Hdoc
      as (port & word & -> & Hnl & Hne & Hdigits & Hword).
    exists port. split; [by apply exposed_node_template|done].
  - by injection Hdoc as <-.
  - by injection Hdoc as <-.
Qed.

(** A node run with the port 8080 in its start script: the build file
    exposes a port and the compose file maps 3000. *)
Lemma ports_of_a_run_node :
  ∃ docs,
    main (with_manifest (JObj [("scripts", JObj [("start", JStr "PORT=8080 node y.js")])]))
         "api" = Ok docs
    ∧ (∃ port, exposed (dockerfileContent docs) = [port]
               ∧ port ≠ "" ∧ all_digits port = true)
    ∧ port_line "3000" ∈ lines_of (dockerComposeContent docs).
Proof.
  eexists. split; [reflexivity|].
  exact (ports_of_a_run
           (with_manifest (JObj [("scripts", JObj [("start", JStr "PORT=8080 node y.js")])]))
           "api" _ eq_refl).
Defined.

(** ** The service name *)

Lemma service_char_is_service_char (c : ascii) :
  is_service_char (service_char c) = true.
Proof.
  unfold service_char, is_service_char.
  destruct (is_lower_alnum (lower_char c)) eqn:Hc; [by rewrite Hc|done].
Qed.

(** A character stands for itself exactly when it is a to z, 0 to 9 or
    -. *)
Lemma service_char_fixed (c : ascii) :
  service_char c = c ↔ is_service_char c = true.
Proof.
  destruct c as [[] [] [] [] [] [] [] []]; vm_compute; split; congruence.
Qed.

Lemma lower_char_idemp (c : ascii) : lower_char (lower_char c) = lower_char c.
Proof. destruct c as [[] [] [] [] [] [] [] []]; by vm_compute. Qed.

Lemma service_char_lower (c : ascii) : service_char (lower_char c) = service_char c.
Proof. unfold service_char. by rewrite lower_char_idemp. Qed.

(** X10.  The service name of the compose file holds no character other
    than a to z, 0 to 9 and -, whatever the directory name; it is empty
    exactly when the directory name is empty, and the key line of the
    compose file is then a lone colon after its indentation. *)
Theorem service_name_characters (a : appType) (basename : string) :
  all_chars is_service_char (replace_non_alnum (toLowerCase basename)) = true
  ∧ (replace_non_alnum (toLowerCase basename) = "" ↔ basename = "")
  ∧ (basename = "" → lines_of (generateDockerCompose a basename) !! 2 = Some "  :").
Proof.
  rewrite replace_toLowerCase. split; [|split].
  - induction basename as [|c s IH]; [done|]. simpl.
    by rewrite service_char_is_service_char, IH.
  - by destruct basename.
  - intros ->. by destruct a as [[] ?].
Qed.

(** The root directory, whose base name is empty. *)
Lemma service_name_characters_root :
  lines_of (generateDockerCompose {| type := generic; packageJson := undefined |} "")
    !! 2 = Some "  :".
Proof.
  apply (service_name_characters {| type := generic; packageJson := undefined |} "").
  reflexivity.
Defined.

(** X11.  Deriving the service name keeps a name that is one already and
    no other: the name comes out unchanged exactly when all its characters
    are a to z, 0 to 9 or -.  Deriving twice is deriving once, and the case
    of the directory name does not matter. *)
Theorem service_name_fixed_points (basename : string) :
  (replace_non_alnum (toLowerCase basename) = basename
   ↔ all_chars is_service_char basename = true)
  ∧ replace_non_alnum (toLowerCase (replace_non_alnum (toLowerCase basename)))
    = replace_non_alnum (toLowerCase basename)
  ∧ replace_non_alnum (toLowerCase (toLowerCase basename))
    = replace_non_alnum (toLowerCase basename).
Proof.
  rewrite !replace_toLowerCase.
  assert (∀ s, service_name s = s ↔ all_chars is_service_char s = true) as Hfix.
  { induction s as [|c s IH]; [done|]. simpl.
    rewrite andb_true_iff, <- IH, <- service_char_fixed. split.
    - by intros [= -> ->].
    - by intros [-> ->]. }
  split; [apply Hfix|]. split.
  - apply Hfix. induction basename as [|c s IH]; [done|]. simpl.
    by rewrite service_char_is_service_char, IH.
  - induction basename as [|c s IH]; [done|]. simpl.
    by rewrite service_char_lower, IH.
Qed.

(** ** The script as a whole *)

(** With a package.json nothing of the directory is read but its
    content. *)
Lemma detectAppType_manifest_only (d1 d2 : directory) (content : manifest_content) :
  package_json d1 = Some content → package_json d2 = Some content →
  detectAppType d1 = detectAppType d2.
Proof. unfold detectAppType. by intros -> ->. Qed.

Lemma detectAppType_no_manifest_only (d1 d2 : directory) :
  package_json d1 = None → package_json d2 = None →
  listing d1 = listing d2 → has_requirements d1 = has_requirements d2 →
  detectAppType d1 = detectAppType d2.
Proof. unfold detectAppType. by intros -> -> -> ->. Qed.

(** The reads of the script return the directory observed, up to the
    fields that are not read. *)
Lemma read_directory_observed (h : host) (absolutePath : string) (d : directory) :
  observed h absolutePath d →
  ∃ d0, read_directory h absolutePath = Run [] (Some d0)
        ∧ detectAppType d0 = detectAppType d.
Proof.
  unfold observed, read_directory.
  destruct (fs_existsSync h (path_join h absolutePath "package.json")).
  - intros (content & -> & Hd). eexists. split; [done|].
    by apply (detectAppType_manifest_only _ _ content).
  - intros (Hd & -> & Hr). eexists. split; [done|].
    by apply detectAppType_no_manifest_only.
Qed.

(** The reads of the script return a directory that is observed, or one
    of them fails. *)
Lemma read_directory_cases (h : host) (absolutePath : string) :
  (∃ d, read_directory h absolutePath = Run [] (Some d) ∧ observed h absolutePath d)
  ∨ (∃ c code, read_directory h absolutePath = Run [uncaught_system c code] None
               ∧ fails h c code ∧ ∀ d, ¬ observed h absolutePath d).
Proof.
  unfold observed, read_directory.
  destruct (fs_existsSync h (path_join h absolutePath "package.json")).
  - destruct (fs_readFileSync h _) as [content|code] eqn:Hread.
    + left. eexists. split; [done|]. by exists content.
    + right. eexists _, code. split; [done|]. split; [done|].
      by intros d (content & [=] & _).
  - destruct (fs_readdirSync h _) as [files|code] eqn:Hread.
    + left. eexists. by split.
    + right. eexists _, code. split; [done|]. split; [done|].
      by intros d (_ & [=] & _).
Qed.

Lemma main_execution_detectAppType (h : host) (appPath absolutePath : string)
    (d1 d2 : directory) :
  detectAppType d1 = detectAppType d2 →
  main_execution h appPath absolutePath d1 = main_execution h appPath absolutePath d2.
Proof. unfold main_execution. by intros ->. Qed.

Lemma main_detectAppType (d1 d2 : directory) (basename : string) :
  detectAppType d1 = detectAppType d2 → main d1 basename = main d2 basename.
Proof. unfold main. by intros ->. Qed.

(** The writes and the end of the main execution, by the outcome of
    [main] and of the three writes. *)
Lemma main_execution_trace (h : host) (appPath absolutePath : string) (d : directory) :
  let trace := events (main_execution h appPath absolutePath d) in
  match main d (path_basename h absolutePath) with
  | Throw e => writes trace = [] ∧ last trace = Some (uncaught e)
  | Ok docs =>
      writes trace = completed h (targets h absolutePath docs)
      ∧ ((completed h (targets h absolutePath docs) = targets h absolutePath docs
          ∧ last trace = Some (console_log "  docker-compose up")
          ∧ console_log "  docker run -p 3000:3000 my-app" ∈ trace)
         ∨ (completed h (targets h absolutePath docs) ≠ targets h absolutePath docs
            ∧ ∃ file data code,
                last trace = Some (uncaught_system (call_writeFileSync file data) code)
                ∧ fs_writeFileSync h file data = failed code))
  end.
Proof.
  unfold main_execution, main.
  destruct (detectAppType d) as [a|e]; [|done].
  cbn [mbind run_bind result_bind mret run_ret throwing say stop value events app].
  destruct (generateDockerfile a) as [doc|e]; [|done].
  cbn [mbind run_bind result_bind mret run_ret throwing say stop value events app].
  unfold targets, write. simpl.
  destruct (fs_writeFileSync h (path_join h absolutePath "Dockerfile") doc)
    as [[]|code1] eqn:H1.
  2:{ split; [done|]. right. split; [done|]. by eexists _, _, code1. }
  destruct (fs_writeFileSync h (path_join h absolutePath ".dockerignore") _)
    as [[]|code2] eqn:H2.
  2:{ split; [done|]. right. split; [done|]. by eexists _, _, code2. }
  destruct (fs_writeFileSync h (path_join h absolutePath "docker-compose.yml") _)
    as [[]|code3] eqn:H3.
  2:{ split; [done|]. right. split; [done|]. by eexists _, _, code3. }
  split; [done|]. left. split; [done|]. split; [done|]. set_solver.
Qed.

Lemma admitted_unique (h : host) (appPath1 absolutePath1 appPath2 absolutePath2 : string) :
  admitted h appPath1 absolutePath1 → admitted h appPath2 absolutePath2 →
  appPath1 = appPath2 ∧ absolutePath1 = absolutePath2.
Proof. intros (H1 & _ & H2 & _) (H3 & _ & H4 & _). split; congruence. Qed.

Lemma admitted_not_refused (h : host) (appPath absolutePath : string) :
  admitted h appPath absolutePath → ¬ refused h.
Proof.
  intros (H1 & H2 & H3 & H4) [H|[H|(a & b & Ha & Hb & Hc)]]; congruence.
Qed.

(** The script before its main execution: a guard ends it, or a call
    fails, or it goes on with the directory observed. *)
Lemma script_cases (h : host) :
  (refused h ∧ writes (script h) = [] ∧ last (script h) = Some (process_exit 1)
   ∧ ¬ ∃ appPath absolutePath, admitted h appPath absolutePath)
  ∨ (¬ refused h
     ∧ (∃ c code, script h = [uncaught_system c code] ∧ fails h c code)
     ∧ ¬ ∃ appPath absolutePath d,
           admitted h appPath absolutePath ∧ observed h absolutePath d)
  ∨ (∃ appPath absolutePath d,
       admitted h appPath absolutePath ∧ observed h absolutePath d
       ∧ script h = events (main_execution h appPath absolutePath d)).
Proof.
  unfold script, script_run.
  destruct (argv2 h) as [appPath|] eqn:Harg.
  2:{ left. split; [by left|]. split; [done|]. split; [done|].
      intros (a & b & Ha & _). unfold admitted in Ha. congruence. }
  case_bool_decide as Hempty.
  { left. subst appPath. split; [by right; left|]. split; [done|]. split; [done|].
    intros (a & b & Ha & Hne & _). congruence. }
  cbn [mbind run_bind mret run_ret value events app].
  destruct (path_resolve h appPath) as [absolutePath|code] eqn:Hres.
  2:{ right. left. split; [|split].
      - intros [H|[H|(a & b & Ha & Hb & _)]]; congruence.
      - by eexists _, code.
      - intros (a & b & d & (Ha & _ & Hb & _) & _). congruence. }
  cbn [calling mbind run_bind mret run_ret value events app].
  destruct (fs_existsSync h absolutePath) eqn:Hex.
  2:{ left. split; [right; right; by eexists _, _|]. split; [done|]. split; [done|].
      intros (a & b & Ha & _ & Hb & Hc). congruence. }
  cbn [mbind run_bind mret run_ret value events app].
  assert (admitted h appPath absolutePath) as Hadm by done.
  destruct (read_directory_cases h absolutePath)
    as [(d & -> & Hobs)|(c & code & -> & Hfails & Hnone)].
  - right. right. by exists appPath, absolutePath, d.
  - right. left. split; [by apply (admitted_not_refused h appPath absolutePath)|].
    split; [by eexists _, _|].
    intros (a & b & d & Ha & Hobs).
    destruct (admitted_unique h _ _ _ _ Hadm Ha) as [-> ->]. by apply (Hnone d).
Qed.

Lemma observed_detectAppType (h : host) (absolutePath : string) (d1 d2 : directory) :
  observed h absolutePath d1 → observed h absolutePath d2 →
  detectAppType d1 = detectAppType d2.
Proof.
  intros (d & Hread & <-)%read_directory_observed (d' & Hread' & <-)%read_directory_observed.
  congruence.
Qed.

(** The script goes on to its main execution on any directory observed
    at the path the guards admit. *)
Lemma script_admitted (h : host) (appPath absolutePath : string) (d : directory) :
  admitted h appPath absolutePath → observed h absolutePath d →
  script h = events (main_execution h appPath absolutePath d).
Proof.
  intros Hadm Hobs.
  destruct (script_cases h)
    as [(_ & _ & _ & Hno)|[(_ & _ & Hno)|(a & b & d' & Hadm' & Hobs' & ->)]].
  - destruct Hno. by eexists _, _.
  - destruct Hno. by eexists _, _, _.
  - destruct (admitted_unique h _ _ _ _ Hadm Hadm') as [-> ->].
    f_equal. apply main_execution_detectAppType.
    by apply (observed_detectAppType h b).
Qed.

(** X12.  The script writes each file as soon as its content is generated
    and undoes nothing.  Where the guards pass and the reads return, the
    files it has written are those of the writes that return before the
    first that fails, among Dockerfile, .dockerignore and
    docker-compose.yml in this order, with the documents of [main] for the
    base name of the absolute path: all three when every write returns,
    the Dockerfile alone when the second write fails, and none when
    detection or generation throws, for the build file is generated before
    the first write.  A run that a guard stops, or in which [path.resolve]
    or a read fails, writes nothing. *)
Theorem script_writes (h : host) :
  (∀ appPath absolutePath d,
     admitted h appPath absolutePath → observed h absolutePath d →
     writes (script h) =
       match main d (path_basename h absolutePath) with
       | Ok docs => completed h (targets h absolutePath docs)
       | Throw _ => []
       end)
  ∧ ((¬ ∃ appPath absolutePath d,
          admitted h appPath absolutePath ∧ observed h absolutePath d) →
     writes (script h) = []).
Proof.
  split.
  - intros appPath absolutePath d Hadm Hobs.
    rewrite (script_admitted h appPath absolutePath d Hadm Hobs).
    pose proof (main_execution_trace h appPath absolutePath d) as Htrace.
    simpl in Htrace. destruct (main d _) as [docs|e]; by destruct Htrace.
  - intros Hno.
    destruct (script_cases h)
      as [(_ & Hw & _)|[(_ & (c & code & -> & _) & _)|(a & b & d & Hadm & Hobs & _)]];
      [done..|].
    destruct Hno. by eexists _, _, _.
Qed.

(** A node project in which the write of .dockerignore fails for want of
    space: the Dockerfile is written, and nothing else. *)
Lemma script_writes_second_fails :
  let h := {| argv2 := Some "api";
              path_resolve := λ p, returned ("/home/u/" +:+ p);
              path_join := λ dir file, dir +:+ "/" +:+ file;
              path_basename := λ _, "api";
              fs_existsSync := λ p, bool_decide (p ≠ "/home/u/api/requirements.txt");
              fs_readFileSync := λ _,
                returned (Parses (JObj [("scripts", JObj [("start", JStr "node x.js")])]));
              fs_readdirSync := λ _, returned ["package.json"; "x.js"];
              fs_writeFileSync := λ file _,
                if bool_decide (file = "/home/u/api/.dockerignore")
                then failed "ENOSPC" else returned () |} in
  writes (script h) = [("/home/u/api/Dockerfile", node_template "3000" "node")].
Proof.
  intros h.
  apply (proj1 (script_writes h) "api" "/home/u/api"
           (with_manifest (JObj [("scripts", JObj [("start", JStr "node x.js")])]))).
  - repeat split; reflexivity || discriminate.
  - eexists. split; reflexivity.
Defined.

(** X13.  How the script ends.  Its last event is the exit with status 1
    exactly when a guard stops it (no argument, an empty one, or nothing at
    the resolved path); the exception of [main] exactly when the guards
    pass, the reads return and [main] throws; the hint docker-compose up
    exactly when [main] returns and all three writes return; and in every
    other case the system error of a call that failed: [path.resolve], the
    read of package.json or of the directory (a path to a regular file
    passes the guards and fails there), or a write.  A run that ends with
    the hint docker-compose up has printed the hint docker run -p 3000:3000
    whatever its type and the port of its build file. *)
Theorem script_end (h : host) :
  (last (script h) = Some (process_exit 1) ↔ refused h)
  ∧ (∀ e, last (script h) = Some (uncaught e) ↔
       ∃ appPath absolutePath d,
         admitted h appPath absolutePath ∧ observed h absolutePath d
         ∧ main d (path_basename h absolutePath) = Throw e)
  ∧ (last (script h) = Some (console_log "  docker-compose up") ↔
       ∃ appPath absolutePath d docs,
         admitted h appPath absolutePath ∧ observed h absolutePath d
         ∧ main d (path_basename h absolutePath) = Ok docs
         ∧ completed h (targets h absolutePath docs) = targets h absolutePath docs)
  ∧ (∀ c code, last (script h) = Some (uncaught_system c code) → fails h c code)
  ∧ (last (script h) = Some (process_exit 1)
     ∨ (∃ e, last (script h) = Some (uncaught e))
     ∨ (∃ c code, last (script h) = Some (uncaught_system c code))
     ∨ last (script h) = Some (console_log "  docker-compose up"))
  ∧ (last (script h) = Some (console_log "  docker-compose up") →
     console_log "  docker run -p 3000:3000 my-app" ∈ script h).
Proof.
  destruct (script_cases h)
    as [(Href & _ & Hlast & Hno)
       |[(Href & (c & code & Hs & Hfails) & Hno)
        |(appPath & absolutePath & d & Hadm & Hobs & Hs)]].
  - rewrite Hlast. split; [done|]. split; [|split; [|split; [|split]]]; try done.
    + intros e. split; [done|]. intros (a & b & _ & Ha & _). destruct Hno. by eexists _, _.
    + split; [done|]. intros (a & b & _ & _ & Ha & _). destruct Hno. by eexists _, _.
    + by left.
  - rewrite Hs. simpl. split; [done|]. split; [|split; [|split; [|split]]]; try done.
    + intros e. split; [done|]. intros (a & b & d & Ha & Hb & _).
      destruct Hno. by eexists _, _, _.
    + split; [done|]. intros (a & b & d & _ & Ha & Hb & _).
      destruct Hno. by eexists _, _, _.
    + by intros ? ? [= <- <-].
    + right. right. left. by eexists _, _.
  - pose proof (admitted_not_refused h _ _ Hadm) as Href.
    assert (∀ a b d', admitted h a b → observed h b d' →
                      b = absolutePath
                      ∧ main d' (path_basename h b) = main d (path_basename h absolutePath))
      as Hsame.
    { intros a b d' Ha Hb. destruct (admitted_unique h _ _ _ _ Hadm Ha) as [-> ->].
      split; [done|]. by apply main_detectAppType, (observed_detectAppType h b). }
    rewrite Hs.
    pose proof (main_execution_trace h appPath absolutePath d) as Htrace.
    simpl in Htrace.
    destruct (main d (path_basename h absolutePath)) as [docs|e] eqn:Hmain.
    + destruct Htrace
        as [_ [(Hall & -> & Hhint)|(Hnot & file & data & code & -> & Hfails)]].
      * split; [done|]. split; [|split; [|split; [|split]]]; try done.
        -- intros e. split; [done|]. intros (a & b & d' & Ha & Hb & Hthrow).
           destruct (Hsame a b d' Ha Hb) as [-> Heq]. congruence.
        -- split; [|done]. intros _. by exists appPath, absolutePath, d, docs.
        -- by repeat right.
      * split; [done|]. split; [|split; [|split; [|split]]]; try done.
        -- intros e. split; [done|]. intros (a & b & d' & Ha & Hb & Hthrow).
           destruct (Hsame a b d' Ha Hb) as [-> Heq]. congruence.
        -- split; [done|]. intros (a & b & d' & docs' & Ha & Hb & Hok & Hall).
           destruct (Hsame a b d' Ha Hb) as [-> Heq].
           rewrite Heq in Hok. injection Hok as <-. done.
        -- by intros ? ? [= <- <-].
        -- right. right. left. by eexists _, _.
    + destruct Htrace as [_ ->].
      split; [done|]. split; [|split; [|split; [|split]]]; try done.
      * intros e'. split.
        -- intros [= <-]. by exists appPath, absolutePath, d.
        -- intros (a & b & d' & Ha & Hb & Hthrow).
           destruct (Hsame a b d' Ha Hb) as [-> Heq]. congruence.
      * split; [done|]. intros (a & b & d' & docs' & Ha & Hb & Hok & _).
        destruct (Hsame a b d' Ha Hb) as [-> Heq]. congruence.
      * right. left. by eexists.
Qed.

(** A react project: the build file exposes 80 and the hint names 3000. *)
Lemma script_end_react_hint :
  let h := {| argv2 := Some "web";
              path_resolve := λ p, returned ("/home/u/" +:+ p);
              path_join := λ dir file, dir +:+ "/" +:+ file;
              path_basename := λ _, "web";
              fs_existsSync := λ p, bool_decide (p ≠ "/home/u/web/requirements.txt");
              fs_readFileSync := λ _,
                returned (Parses (JObj [("dependencies", JObj [("react", JStr "^18.2.0")])]));
              fs_readdirSync := λ _, returned ["package.json"; "src"];
              fs_writeFileSync := λ _ _, returned () |} in
  console_log "  docker run -p 3000:3000 my-app" ∈ script h
  ∧ ∃ doc, (path_join h "/home/u/web" "Dockerfile", doc) ∈ writes (script h)
           ∧ exposed doc = ["80"].
Proof.
  intros h. split.
  - apply (proj2 (proj2 (proj2 (proj2 (proj2 (script_end h)))))). reflexivity.
  - eexists. split; [left|]. reflexivity.
Defined.

(** The path of a regular file: both guards pass, nothing named
    package.json exists under it, and the read of the directory fails; the
    run ends with the system error and has written nothing. *)
Example script_on_a_regular_file :
  let h := {| argv2 := Some "notes.txt";
              path_resolve := λ p, returned ("/home/u/" +:+ p);
              path_join := λ dir file, dir +:+ "/" +:+ file;
              path_basename := λ _, "notes.txt";
              fs_existsSync := λ p, bool_decide (p = "/home/u/notes.txt");
              fs_readFileSync := λ _, failed "ENOTDIR";
              fs_readdirSync := λ _, failed "ENOTDIR";
              fs_writeFileSync := λ _ _, returned () |} in
  admitted h "notes.txt" "/home/u/notes.txt"
  ∧ script h = [uncaught_system (call_readdirSync "/home/u/notes.txt") "ENOTDIR"].
Proof. intros h. split; [|reflexivity]. repeat split; reflexivity || discriminate. Qed.
